(** * Shallow embedding of the transaction lifecycle of quai-transfer

    Sources: [wallet/wallet.go] (package [wallet]), the DAL
    [TransactionDAL] (package [dal]), [models.Transaction] and
    [wtypes.TransferEntry].  Wallet operations are written in a small
    state-and-error monad over the wallet state; the chain client, the
    signer and the clock are collaborators supplied as an environment of
    oracles ([Env]). *)

From Stdlib Require Import ZArith String List Lia QArith Qpower.
From stdpp Require Import base gmap sets list strings.

Open Scope Z_scope.

(* ------------------------------------------------------------------ *)
(** ** Go integers and [shopspring/decimal] *)

Definition two64 : Z := 2 ^ 64.

(** uint64 addition, with Go's wrap-around. *)
Definition u64_add (x y : Z) : Z := (x + y) mod two64.

(** [int64(x)] for a uint64 [x]: the two's-complement reinterpretation. *)
Definition int64_of_uint64 (x : Z) : Z :=
  if x <? 2 ^ 63 then x else x - two64.

(** [decimal.Decimal] is [value * 10 ^ exp]. *)
Record Decimal := mkDecimal { dec_value : Z; dec_exp : Z }.

Definition decimal_Zero : Decimal := mkDecimal 0 0.
Definition decimal_NewFromInt (v : Z) : Decimal := mkDecimal v 0.
Definition decimal_NewFromBigInt (v e : Z) : Decimal := mkDecimal v e.

(** [d.rescale(e)] for [e <= d.exp]: the coefficient at exponent [e]. *)
Definition decimal_rescale (d : Decimal) (e : Z) : Z :=
  dec_value d * 10 ^ (dec_exp d - e).

(** [d.Cmp(d2)]: both sides rescaled to the smaller exponent. *)
Definition decimal_Cmp (a b : Decimal) : comparison :=
  let e := Z.min (dec_exp a) (dec_exp b) in
  Z.compare (decimal_rescale a e) (decimal_rescale b e).

(** [d.Equal(d2)] is [d.Cmp(d2) == 0]. *)
Definition decimal_Equal (a b : Decimal) : bool :=
  match decimal_Cmp a b with Eq => true | _ => false end.

(** [d.Mul(d2)]: coefficients multiplied, exponents added. *)
Definition decimal_Mul (a b : Decimal) : Decimal :=
  mkDecimal (dec_value a * dec_value b) (dec_exp a + dec_exp b).

(** [d.BigInt()]: rescaled to exponent 0, truncating toward zero. *)
Definition decimal_BigInt (d : Decimal) : Z :=
  if 0 <=? dec_exp d then dec_value d * 10 ^ dec_exp d
  else Z.quot (dec_value d) (10 ^ (- dec_exp d)).

(* ------------------------------------------------------------------ *)
(** ** [strings.Contains] *)

Fixpoint strings_Contains (s substr : string) : bool :=
  String.prefix substr s ||
  match s with
  | EmptyString => false
  | String _ s' => strings_Contains s' substr
  end.

(* ------------------------------------------------------------------ *)
(** ** Go errors

    One constructor per error the code builds.  [ErrWrapW] is
    [fmt.Errorf("...: %w", err)] (unwrappable by [errors.Is]);
    [ErrWrapV] is [fmt.Errorf("...: %v", err)] (the cause is flattened
    into the text).  [ErrMsg] is an error received from a collaborator,
    carrying its [Error()] text. *)
Inductive GoError :=
| ErrAlreadyProcessed
| ErrRecordNotFound
| ErrDeadlineExceeded
| ErrMsg (msg : string)
| ErrEntryMismatch (id : Z)
| ErrWrapW (format : string) (cause : GoError)
| ErrWrapV (format : string) (cause : GoError).

Fixpoint GoError_eqb (a b : GoError) : bool :=
  match a, b with
  | ErrAlreadyProcessed, ErrAlreadyProcessed => true
  | ErrRecordNotFound, ErrRecordNotFound => true
  | ErrDeadlineExceeded, ErrDeadlineExceeded => true
  | ErrMsg m, ErrMsg m' => String.eqb m m'
  | ErrEntryMismatch i, ErrEntryMismatch i' => Z.eqb i i'
  | ErrWrapW f c, ErrWrapW f' c' => String.eqb f f' && GoError_eqb c c'
  | ErrWrapV f c, ErrWrapV f' c' => String.eqb f f' && GoError_eqb c c'
  | _, _ => false
  end.

(** [errors.Is(err, target)]: follows the [%w] chain. *)
Fixpoint errors_Is (err target : GoError) : bool :=
  GoError_eqb err target ||
  match err with
  | ErrWrapW _ c => errors_Is c target
  | _ => false
  end.

(** A Go [(T, error)] pair where the [T] is meaningless on error. *)
Inductive res (A : Type) := Ok (a : A) | Err (e : GoError).
Arguments Ok {A} a.
Arguments Err {A} e.

(* ------------------------------------------------------------------ *)
(** ** Data model *)

Module wtypes.
(** [wtypes.TransferEntry]; [Value] is a [decimal.Decimal],
    [AggregateIds] a [pq.Int64Array], [MinerAccountID] a uint64. *)
Record TransferEntry := mkTransferEntry {
  ID : Z;
  MinerAccount : string;
  Value : Decimal;
  ToAddress : string;
  AggregateIds : list Z;
  MinerAccountID : Z
}.
End wtypes.

Module types.
(** A signed [types.Transaction] of go-quai, by the accessors the
    wallet uses: [Hash()], [Nonce()], [GasPrice()], [Gas()], [To()],
    [Value()]. *)
Record Transaction := mkTransaction {
  Hash : Z;
  Nonce : Z;
  GasPrice : Z;
  Gas : Z;
  To : string;
  Value : Z
}.

(** [types.Receipt], by the fields the wallet reads. *)
Record Receipt := mkReceipt {
  Status : Z;
  GasUsed : Z;
  CumulativeGasUsed : Z
}.

Definition ReceiptStatusFailed : Z := 0.
Definition ReceiptStatusSuccessful : Z := 1.
End types.

Module models.
(** [models.TxStatus]: [Generated = 0], [Confirmed = 1]. *)
Definition Generated : Z := 0.
Definition Confirmed : Z := 1.

(** [models.Transaction], one row of table [transactions].  The jsonb
    columns [Tx] and [Entry] hold the JSON of the signed transaction
    and of the source entry; JSON encoding followed by decoding is the
    identity on them, so a column holds the value it encodes, and
    [None] is the empty text, the zero value of a Go string. *)
Record Transaction := mkTransaction {
  ID : Z;
  Payer : string;
  Nonce : Z;
  ToAddress : string;
  TxHash : Z;
  Value : Decimal;
  Gas : Decimal;
  GasLimit : Decimal;
  GasUsed : Decimal;
  CumulativeGasUsed : Decimal;
  GasPrice : Decimal;
  Status : Z;
  CreatedAt : Z;
  ConfirmedAt : option Z;
  AggregateIds : list Z;
  Tx : option types.Transaction;
  Entry : option wtypes.TransferEntry
}.

(** [var tx models.Transaction]: the zero value. *)
Definition zero : Transaction :=
  mkTransaction 0 "" 0 "" 0 decimal_Zero decimal_Zero decimal_Zero
    decimal_Zero decimal_Zero decimal_Zero 0 0 None [] None None.
End models.

(* ------------------------------------------------------------------ *)
(** ** The store: table [transactions] behind GORM

    [rows] is the table keyed by its primary key [id]; [io_error] is
    [Some msg] while the database connection fails, every statement then
    returning that error.  GORM makes the [int32] primary key [ID]
    auto-increment (it carries no [autoIncrement:false] tag), so
    [AutoMigrate] creates [id] as a PostgreSQL [serial]; [id_seq] is the
    value the next [nextval('transactions_id_seq')] gives. *)
Record DB := mkDB {
  rows : gmap Z models.Transaction;
  io_error : option string;
  id_seq : Z
}.

Definition set_rows (db : DB) (r : gmap Z models.Transaction) : DB :=
  mkDB r (io_error db) (id_seq db).

Definition hash_taken (rs : gmap Z models.Transaction) (h : Z) : bool :=
  existsb (fun kr => Z.eqb (models.TxHash kr.2) h) (map_to_list rs).

(** [r] with its primary key set to [id]. *)
Definition with_ID (r : models.Transaction) (id : Z) : models.Transaction :=
  models.mkTransaction id (models.Payer r) (models.Nonce r) (models.ToAddress r)
    (models.TxHash r) (models.Value r) (models.Gas r) (models.GasLimit r)
    (models.GasUsed r) (models.CumulativeGasUsed r) (models.GasPrice r)
    (models.Status r) (models.CreatedAt r) (models.ConfirmedAt r)
    (models.AggregateIds r) (models.Tx r) (models.Entry r).

(** The largest value of a [serial] (PostgreSQL [integer]). *)
Definition serial_max : Z := 2147483647.

(** [db.Create(tx).Error] on PostgreSQL.  The [jsonb] columns [tx] and
    [entry] reject the empty text (the zero value of a Go string) when the
    statement's parameters are bound, before it runs.  A zero [ID] is left
    out of the INSERT and the column default [nextval] supplies it; the
    sequence stays advanced whatever becomes of the INSERT, and fails past
    [serial_max].  The row is then rejected by the primary key on [id] and
    by the unique index on [tx_hash].  (Error texts are PostgreSQL's, with
    their quotes dropped.) *)
Definition gorm_Create (db : DB) (r : models.Transaction) : DB * option GoError :=
  match io_error db with
  | Some m => (db, Some (ErrMsg m))
  | None =>
      match models.Tx r, models.Entry r with
      | Some _, Some _ =>
          if Z.eqb (models.ID r) 0 && Z.ltb serial_max (id_seq db) then
            (db, Some (ErrMsg "nextval: reached maximum value of sequence transactions_id_seq (2147483647)"))
          else
            let '(id, db1) :=
              if Z.eqb (models.ID r) 0
              then (id_seq db, mkDB (rows db) (io_error db) (id_seq db + 1))
              else (models.ID r, db) in
            match rows db1 !! id with
            | Some _ => (db1, Some (ErrMsg "duplicate key value violates unique constraint transactions_pkey"))
            | None =>
                if hash_taken (rows db1) (models.TxHash r)
                then (db1, Some (ErrMsg "duplicate key value violates unique constraint idx_transactions_tx_hash"))
                else (set_rows db1 (<[id := with_ID r id]> (rows db1)), None)
            end
      | _, _ => (db, Some (ErrMsg "invalid input syntax for type json"))
      end
  end.

(** [db.Model(..).Where("tx_hash = ?", h).Updates(f).Error]: an UPDATE of
    every row whose [tx_hash] is [h]; no matching row is not an error
    (GORM reports it only through [RowsAffected]). *)
Definition gorm_Updates_by_hash (db : DB) (h : Z)
    (f : models.Transaction -> models.Transaction) : DB * option GoError :=
  match io_error db with
  | Some m => (db, Some (ErrMsg m))
  | None =>
      (set_rows db ((fun r => if Z.eqb (models.TxHash r) h then f r else r) <$> rows db),
       None)
  end.

(** [db.Table("transactions").Select("tx::text", "entry::text", "status")
      .Where("id = ?", id).Scan(&tx)] with [tx] the zero value: GORM's
    [Scan] copies the selected columns of the first row into [tx]; when
    the query yields no row it leaves [tx] as it was and sets no error
    ([ErrRecordNotFound] is raised by [First], [Take] and [Last] only). *)
Definition gorm_Scan_by_id (db : DB) (id : Z) : models.Transaction * option GoError :=
  match io_error db with
  | Some m => (models.zero, Some (ErrMsg m))
  | None =>
      match rows db !! id with
      | None => (models.zero, None)
      | Some r =>
          (models.mkTransaction 0 "" 0 "" 0 decimal_Zero decimal_Zero decimal_Zero
             decimal_Zero decimal_Zero decimal_Zero (models.Status r) 0 None []
             (models.Tx r) (models.Entry r), None)
      end
  end.

(* ------------------------------------------------------------------ *)
(** ** [dal.TransactionDAL] *)

Module dal.
(** [TransactionDAL.CreateTransaction]. *)
Definition CreateTransaction (db : DB) (tx : models.Transaction) : DB * option GoError :=
  gorm_Create db tx.

(** [TransactionDAL.UpdateTransactionStatus]; [now] is [time.Now()]. *)
Definition UpdateTransactionStatus (db : DB) (now : Z) (txHash : Z)
    (gasUsedAmount : Decimal) (receipt : types.Receipt) : DB * option GoError :=
  let gasUsedCalculated := decimal_NewFromInt (int64_of_uint64 (types.GasUsed receipt)) in
  let cumulativeGasUsed :=
    decimal_NewFromInt (int64_of_uint64 (types.CumulativeGasUsed receipt)) in
  gorm_Updates_by_hash db txHash (fun r =>
    models.mkTransaction (models.ID r) (models.Payer r) (models.Nonce r)
      (models.ToAddress r) (models.TxHash r) (models.Value r)
      gasUsedAmount (models.GasLimit r) gasUsedCalculated cumulativeGasUsed
      (models.GasPrice r) (types.Status receipt) (models.CreatedAt r) (Some now)
      (models.AggregateIds r) (models.Tx r) (models.Entry r)).

(** [TransactionDAL.GetTransactionByID]: [Ok None] is [(nil, nil)]. *)
Definition GetTransactionByID (db : DB) (id : Z) : res (option models.Transaction) :=
  let '(tx, err) := gorm_Scan_by_id db id in
  match err with
  | Some e =>
      if GoError_eqb e ErrRecordNotFound then Ok None
      else Err (ErrWrapV "failed to get transaction" e)
  | None => Ok (Some tx)
  end.
End dal.

(* ------------------------------------------------------------------ *)
(** ** [CompareEntries]

    A [*wtypes.TransferEntry] is an [option]; [a == b] on two pointers
    one of which is nil holds iff both are nil. *)
Definition CompareEntries (a b : option wtypes.TransferEntry) : bool :=
  match a, b with
  | Some a, Some b =>
      Z.eqb (wtypes.ID a) (wtypes.ID b) &&
      Z.eqb (wtypes.MinerAccountID a) (wtypes.MinerAccountID b) &&
      String.eqb (wtypes.ToAddress a) (wtypes.ToAddress b) &&
      decimal_Equal (wtypes.Value a) (wtypes.Value b)
  | None, None => true
  | _, _ => false
  end.

(* ------------------------------------------------------------------ *)
(** ** The wallet *)

(** [PendingTx]. *)
Record PendingTx := mkPendingTx {
  PTx : types.Transaction;
  PEntry : wtypes.TransferEntry
}.

(** Ghost trace: [EvSign id h] when [CreateTransaction] signs a
    transaction of hash [h] for entry [id]; [EvBroadcast id h] when the
    transaction of hash [h] is handed to [BroadcastTransaction] on behalf
    of entry [id]. *)
Inductive Event :=
| EvSign (id h : Z)
| EvBroadcast (id h : Z).

(** The mutable part of [Wallet]: the store behind [txDAL], the nonce
    ledger ([maxLocalNonce], [pendingNonces]), the in-memory [pendingTxs]
    keyed by transaction hash, the current time in seconds and the ghost
    trace. *)
Record Wallet := mkWallet {
  txDAL : DB;
  maxLocalNonce : Z;
  pendingNonces : gset Z;
  pendingTxs : gmap Z PendingTx;
  clock : Z;
  trace : list Event
}.

Definition set_txDAL (w : Wallet) (db : DB) : Wallet :=
  mkWallet db (maxLocalNonce w) (pendingNonces w) (pendingTxs w) (clock w) (trace w).
Definition set_nonces (w : Wallet) (m : Z) (p : gset Z) : Wallet :=
  mkWallet (txDAL w) m p (pendingTxs w) (clock w) (trace w).
Definition set_pendingTxs (w : Wallet) (p : gmap Z PendingTx) : Wallet :=
  mkWallet (txDAL w) (maxLocalNonce w) (pendingNonces w) p (clock w) (trace w).
Definition set_clock (w : Wallet) (t : Z) : Wallet :=
  mkWallet (txDAL w) (maxLocalNonce w) (pendingNonces w) (pendingTxs w) t (trace w).
Definition add_event (w : Wallet) (ev : Event) : Wallet :=
  mkWallet (txDAL w) (maxLocalNonce w) (pendingNonces w) (pendingTxs w) (clock w)
    (trace w ++ [ev]).

(** A [context.Context]: [context.Background()] or one with a deadline
    (in seconds); [ctx.Err()] past the deadline is [DeadlineExceeded]. *)
Inductive Context := Background | WithDeadline (d : Z).

Definition done_by (ctx : Context) (t : Z) : bool :=
  match ctx with Background => false | WithDeadline d => d <=? t end.

(** Constants of [wallet.go] (durations in seconds). *)
Definition GasLimit : Z := 420000.
Definition ReceiptMaxRetries : nat := 30.
Definition NonceWaitTime : Z := 5.
Definition ReceiptWaitTime : Z := 15.
Definition ReceiptRetryWait : Z := 10.
Definition BatchMonitorTimeout : Z := 600.

(** The collaborators, as functions of the time of the call: the chain
    client ([PendingNonceAt], [SuggestGasPrice], [SendTransaction] giving
    the error text or success, [TransactionReceipt] giving [None] when
    the node reports no receipt), the signer (hash of the signed
    transaction of the given nonce, gas price, recipient and value), the
    wallet's own address and the address check [IsValidQuaiAddress]. *)
Record Env := mkEnv {
  PendingNonceAt : Z -> res Z;
  SuggestGasPrice : Z -> res Z;
  SignTx : Z -> Z -> string -> Z -> res Z;
  SendTransaction : Z -> Z -> option string;
  TransactionReceipt : Z -> Z -> option types.Receipt;
  Address : string;
  IsValidQuaiAddress : string -> bool
}.

(* ------------------------------------------------------------------ *)
(** ** A state-and-error monad over the wallet *)

Definition M (A : Type) : Type := Wallet -> Wallet * res A.

Definition ret {A} (a : A) : M A := fun w => (w, Ok a).
Definition throw {A} (e : GoError) : M A := fun w => (w, Err e).
Definition bind {A B} (c : M A) (k : A -> M B) : M B :=
  fun w => match c w with
           | (w', Ok a) => k a w'
           | (w', Err e) => (w', Err e)
           end.
Definition get : M Wallet := fun w => (w, Ok w).
Definition modify (f : Wallet -> Wallet) : M unit := fun w => (f w, Ok tt).
(** [err := c()], keeping the error as a value. *)
Definition attempt {A} (c : M A) : M (res A) :=
  fun w => let '(w', r) := c w in (w', Ok r).
(** [if err != nil { return fmt.Errorf(format, err) }] with [%w] / [%v]. *)
Definition wrapW {A} (format : string) (c : M A) : M A :=
  fun w => match c w with
           | (w', Err e) => (w', Err (ErrWrapW format e))
           | r => r
           end.
Definition wrapV {A} (format : string) (c : M A) : M A :=
  fun w => match c w with
           | (w', Err e) => (w', Err (ErrWrapV format e))
           | r => r
           end.
Definition emit (ev : Event) : M unit := modify (fun w => add_event w ev).

Notation "'let*' x ':=' c 'in' k" := (bind c (fun x => k))
  (at level 200, x name, c at level 100, k at level 200).

(** [select { case <-ctx.Done(): return ctx.Err(); case <-time.After(d): }]
    When the deadline comes no later than the timer, the context wins. *)
Definition sleep (ctx : Context) (d : Z) : M unit :=
  fun w =>
    match ctx with
    | WithDeadline dl =>
        if dl <=? clock w + d
        then (set_clock w (Z.max (clock w) dl), Err ErrDeadlineExceeded)
        else (set_clock w (clock w + d), Ok tt)
    | Background => (set_clock w (clock w + d), Ok tt)
    end.

(** The error text of an error received from a collaborator. *)
Definition error_text (e : GoError) : string :=
  match e with ErrMsg m => m | _ => "" end.

(* ------------------------------------------------------------------ *)
(** ** [Wallet] methods *)

Section Wallet_methods.
Variable env : Env.

(** [Wallet.GetNonce]. *)
Definition GetNonce (ctx : Context) : M Z :=
  let* w := get in
  match PendingNonceAt env (clock w) with
  | Err e => throw e
  | Ok pendingNonce =>
      let nonce :=
        if pendingNonce <=? maxLocalNonce w
        then u64_add (maxLocalNonce w) 1 else pendingNonce in
      let* _ := modify (fun w => set_nonces w nonce ({[nonce]} ∪ pendingNonces w)) in
      let* _ := sleep ctx NonceWaitTime in
      ret nonce
  end.

(** [Wallet.cleanupConfirmedNonces]. *)
Definition cleanupConfirmedNonces (nonce : Z) : M unit :=
  modify (fun w => set_nonces w (maxLocalNonce w) (pendingNonces w ∖ {[nonce]})).

(** [Wallet.GetTransactionReceipt]. *)
Definition GetTransactionReceipt (txHash : Z) : M types.Receipt :=
  let* w := get in
  match TransactionReceipt env (clock w) txHash with
  | Some r => ret r
  | None => throw (ErrMsg "not found")
  end.

(** [Wallet.BroadcastTransaction] (with [config.Debug] off). *)
Definition BroadcastTransaction (tx : types.Transaction) : M unit :=
  let* w := get in
  match SendTransaction env (clock w) (types.Hash tx) with
  | None => ret tt
  | Some m => throw (ErrMsg m)
  end.

(** [w.txDAL.UpdateTransactionStatus(ctx, ...)]. *)
Definition UpdateTransactionStatus (txHash : Z) (gasUsedAmount : Decimal)
    (receipt : types.Receipt) : M unit :=
  fun w =>
    let '(db', err) := dal.UpdateTransactionStatus (txDAL w) (clock w) txHash gasUsedAmount receipt in
    match err with
    | None => (set_txDAL w db', Ok tt)
    | Some e => (set_txDAL w db', Err e)
    end.

(** [w.txDAL.CreateTransaction(ctx, txRecord)]. *)
Definition CreateTransactionRecord (txRecord : models.Transaction) : M unit :=
  fun w =>
    let '(db', err) := dal.CreateTransaction (txDAL w) txRecord in
    match err with
    | None => (set_txDAL w db', Ok tt)
    | Some e => (set_txDAL w db', Err e)
    end.

(** [decimal.NewFromInt(int64(receipt.GasUsed)).Mul(decimal.NewFromBigInt(tx.GasPrice(), 0))]. *)
Definition gasUsedAmount (tx : types.Transaction) (receipt : types.Receipt) : Decimal :=
  decimal_Mul (decimal_NewFromInt (int64_of_uint64 (types.GasUsed receipt)))
    (decimal_NewFromBigInt (types.GasPrice tx) 0).

(** [Wallet.CheckTransactionAndConfirm]. *)
Definition CheckTransactionAndConfirm (ctx : Context) (tx : types.Transaction) : M unit :=
  let* receipt := GetTransactionReceipt (types.Hash tx) in
  let* _ := UpdateTransactionStatus (types.Hash tx) (gasUsedAmount tx receipt) receipt in
  cleanupConfirmedNonces (types.Nonce tx).

(** The loop of [Wallet.WaitForReceipt]; [left] is the number of
    attempts still allowed, [ReceiptMaxRetries - retry]. *)
Fixpoint WaitForReceipt_loop (ctx : Context) (txHash : Z) (left : nat) : M types.Receipt :=
  match left with
  | O => throw (ErrMsg "timeout waiting for transaction receipt after 30 attempts")
  | S left' =>
      let* r := attempt (GetTransactionReceipt txHash) in
      match r with
      | Ok receipt => ret receipt
      | Err _ =>
          match left' with
          | O => throw (ErrMsg "timeout waiting for transaction receipt after 30 attempts")
          | S _ => let* _ := sleep ctx ReceiptRetryWait in WaitForReceipt_loop ctx txHash left'
          end
      end
  end.

(** [Wallet.WaitForReceipt]. *)
Definition WaitForReceipt (ctx : Context) (txHash : Z) : M types.Receipt :=
  WaitForReceipt_loop ctx txHash ReceiptMaxRetries.

(** [Wallet.MonitorAndConfirmTransaction]. *)
Definition MonitorAndConfirmTransaction (ctx : Context) (tx : types.Transaction) : M unit :=
  let* receipt := WaitForReceipt ctx (types.Hash tx) in
  let* _ := UpdateTransactionStatus (types.Hash tx) (gasUsedAmount tx receipt) receipt in
  cleanupConfirmedNonces (types.Nonce tx).

(** [Wallet.CreateTransaction]; [common.HexToAddress(entry.ToAddress)]
    followed by [to.Hex()] is the identity on the addresses that reach it. *)
Definition CreateTransaction (ctx : Context) (entry : wtypes.TransferEntry)
    : M types.Transaction :=
  let from := Address env in
  let to := wtypes.ToAddress entry in
  let* nonce := wrapV "failed to get nonce" (GetNonce ctx) in
  let* w := get in
  match SuggestGasPrice env (clock w) with
  | Err e => throw (ErrWrapV "failed to get gas price" e)
  | Ok gasPrice =>
      let value := decimal_BigInt (wtypes.Value entry) in
      match SignTx env nonce gasPrice to value with
      | Err e => throw (ErrWrapV "failed to sign transaction" e)
      | Ok h =>
          let signedTx := types.mkTransaction h nonce gasPrice GasLimit to value in
          let* _ := emit (EvSign (wtypes.ID entry) h) in
          let txRecord :=
            models.mkTransaction (wtypes.ID entry) from nonce to h (wtypes.Value entry)
              decimal_Zero (decimal_NewFromInt GasLimit) decimal_Zero decimal_Zero
              (decimal_NewFromBigInt gasPrice 0) models.Generated (clock w) None
              (wtypes.AggregateIds entry) (Some signedTx) (Some entry) in
          let* _ := wrapV "failed to create transaction record" (CreateTransactionRecord txRecord) in
          ret signedTx
      end
  end.

(** [Wallet.GetTransactionByID]: [(signedTx, storedEntry, status)]. *)
Definition GetTransactionByID (id : Z)
    : M (option types.Transaction * option wtypes.TransferEntry * Z) :=
  let* w := get in
  match dal.GetTransactionByID (txDAL w) id with
  | Err e => throw (ErrWrapV "failed to get transaction" e)
  | Ok None => ret (None, None, 0)
  | Ok (Some txRecord) =>
      match models.Tx txRecord with
      | None => throw (ErrWrapV "failed to deserialize transaction"
                         (ErrMsg "unexpected end of JSON input"))
      | Some tx =>
          match models.Entry txRecord with
          | None => throw (ErrWrapV "failed to deserialize entry"
                             (ErrMsg "unexpected end of JSON input"))
          | Some entry => ret (Some tx, Some entry, models.Status txRecord)
          end
      end
  end.

(** The first part of [ProcessEntry] and [ProcessEntryAsync]: lookup,
    confirmed check, mismatch check, and reuse or creation of the
    signed transaction. *)
Definition obtain_signed_tx (ctx : Context) (entry : wtypes.TransferEntry)
    : M types.Transaction :=
  let* r := wrapW "failed to get transaction" (GetTransactionByID (wtypes.ID entry)) in
  let '(signedTx, storedEntry, status) := r in
  if Z.eqb status models.Confirmed then throw ErrAlreadyProcessed
  else if (if storedEntry then true else false) && negb (CompareEntries (Some entry) storedEntry)
  then throw (ErrEntryMismatch (wtypes.ID entry))
  else match signedTx with
       | None => wrapW "failed to create transaction" (CreateTransaction ctx entry)
       | Some tx => ret tx
       end.

(** [Wallet.ProcessEntry]. *)
Definition ProcessEntry (ctx : Context) (entry : wtypes.TransferEntry) : M unit :=
  let* signedTx := obtain_signed_tx ctx entry in
  let* _ := emit (EvBroadcast (wtypes.ID entry) (types.Hash signedTx)) in
  let* r := attempt (BroadcastTransaction signedTx) in
  match r with
  | Ok _ => MonitorAndConfirmTransaction ctx signedTx
  | Err err =>
      if strings_Contains (error_text err) "nonce too low" then
        wrapW "failed to check and confirm transaction: receipt %w and nonce too low"
          (CheckTransactionAndConfirm ctx signedTx)
      else if strings_Contains (error_text err) "already known" then
        MonitorAndConfirmTransaction ctx signedTx
      else throw (ErrWrapW "failed to send transaction" err)
  end.

(** [Wallet.ProcessEntryAsync]. *)
Definition ProcessEntryAsync (ctx : Context) (entry : wtypes.TransferEntry) : M unit :=
  let* signedTx := obtain_signed_tx ctx entry in
  let* _ := modify (fun w => set_pendingTxs w
                 (<[types.Hash signedTx := mkPendingTx signedTx entry]> (pendingTxs w))) in
  let* _ := emit (EvBroadcast (wtypes.ID entry) (types.Hash signedTx)) in
  let* r := attempt (BroadcastTransaction signedTx) in
  match r with
  | Ok _ => ret tt
  | Err err =>
      if negb (strings_Contains (error_text err) "nonce too low") &&
         negb (strings_Contains (error_text err) "already known") then
        let* _ := modify (fun w => set_pendingTxs w (delete (types.Hash signedTx) (pendingTxs w))) in
        throw (ErrWrapW "failed to broadcast transaction" err)
      else ret tt
  end.

(** One pass of [Wallet.checkPendingTransactions] over the snapshot. *)
Fixpoint check_each (snapshot : list PendingTx) : M unit :=
  match snapshot with
  | [] => ret tt
  | pendingTx :: rest =>
      let* r := attempt (CheckTransactionAndConfirm Background (PTx pendingTx)) in
      let* _ := match r with
                | Ok _ => modify (fun w => set_pendingTxs w
                                    (delete (types.Hash (PTx pendingTx)) (pendingTxs w)))
                | Err _ => ret tt
                end in
      check_each rest
  end.

(** [Wallet.checkPendingTransactions]: the snapshot of [pendingTxs] is
    taken under the read lock; the checks of distinct entries touch
    distinct rows, nonces and keys, so the iteration order of the Go map
    does not matter and [map_to_list]'s order stands for it. *)
Definition checkPendingTransactions : M unit :=
  let* w := get in
  check_each (map snd (map_to_list (pendingTxs w))).

(** The [for] loop of [MonitorAllTransactions]; [ticks] is the number of
    ticker events that fire strictly before the deadline. *)
Fixpoint monitor_loop (ticks : nat) : M (Z * option GoError) :=
  let* w := get in
  if Z.eqb (Z.of_nat (size (pendingTxs w))) 0 then ret (0, None)
  else match ticks with
       | O => ret (Z.of_nat (size (pendingTxs w)), Some ErrDeadlineExceeded)
       | S t =>
           let* _ := modify (fun w => set_clock w (clock w + ReceiptWaitTime)) in
           let* _ := checkPendingTransactions in
           monitor_loop t
       end.

(** Ticks of a [ReceiptWaitTime] ticker started at [start] that fire
    strictly before [deadline] (a tie goes to the context). *)
Definition ticks_before (start deadline : Z) : nat :=
  if start <? deadline then Z.to_nat ((deadline - start - 1) / ReceiptWaitTime) else O.

(** [Wallet.MonitorAllTransactions(ctx)] for a context whose deadline
    is [deadline]: [(unprocessedCount, err)]. *)
Definition MonitorAllTransactions (deadline : Z) : M (Z * option GoError) :=
  let* _ := checkPendingTransactions in
  let* w := get in
  monitor_loop (ticks_before (clock w) deadline).

(** The counters of [ProcessBatchEntry], as printed in its summary. *)
Record BatchReport := mkBatchReport {
  total : Z;
  successCnt : Z;
  failedCnt : Z;
  processedCnt : Z;
  unprocessedCount : Z;
  invalidCnt : Z
}.

(** The submission loop of [ProcessBatchEntry]:
    [(invalidCnt, failedCnt, processedCnt)]. *)
Fixpoint submit_entries (ctx : Context) (entries : list wtypes.TransferEntry)
    (invalid failed processed : Z) : M (Z * Z * Z) :=
  match entries with
  | [] => ret (invalid, failed, processed)
  | entry :: rest =>
      if negb (IsValidQuaiAddress env (wtypes.ToAddress entry)) then
        submit_entries ctx rest (invalid + 1) failed processed
      else
        let* r := attempt (ProcessEntryAsync ctx entry) in
        match r with
        | Ok _ => submit_entries ctx rest invalid failed processed
        | Err err =>
            if errors_Is err ErrAlreadyProcessed
            then submit_entries ctx rest invalid failed (processed + 1)
            else submit_entries ctx rest invalid (failed + 1) processed
        end
  end.

(** [Wallet.ProcessBatchEntry]; the monitor runs under
    [context.WithTimeout(context.Background(), 10*time.Minute)]. *)
Definition ProcessBatchEntry (ctx : Context) (entries : list wtypes.TransferEntry)
    : M BatchReport :=
  let* counts := submit_entries ctx entries 0 0 0 in
  let '(invalid, failed, processed) := counts in
  let* w := get in
  let* m := MonitorAllTransactions (clock w + BatchMonitorTimeout) in
  let unprocessed := fst m in
  let success := Z.of_nat (length entries) - invalid - failed - processed - unprocessed in
  ret (mkBatchReport (Z.of_nat (length entries)) success failed processed unprocessed invalid).

End Wallet_methods.

(* ------------------------------------------------------------------ *)
(** ** [IsTransactionExist], [SendQuai], [CheckBalance] and the
    transfer loop of [runTransfer] *)

(** [db.Model(&models.Transaction{}).Where("id = ?", id).First(&tx)]:
    the row read, [RowsAffected] and [Error]; unlike [Scan], [First]
    reports a query that yields no row as [ErrRecordNotFound]. *)
Definition gorm_First_by_id (db : DB) (id : Z) : models.Transaction * Z * option GoError :=
  match io_error db with
  | Some m => (models.zero, 0, Some (ErrMsg m))
  | None =>
      match rows db !! id with
      | Some r => (r, 1, None)
      | None => (models.zero, 0, Some ErrRecordNotFound)
      end
  end.

(** [TransactionDAL.IsTransactionExist]. *)
Definition dal_IsTransactionExist (db : DB) (id : Z) : bool * option GoError :=
  let '(_, rowsAffected, err) := gorm_First_by_id db id in
  match err with
  | Some e => (false, Some e)
  | None => (0 <? rowsAffected, None)
  end.

(** [d.Add(d2)]: both sides rescaled to the smaller exponent
    ([RescalePair]), coefficients added. *)
Definition decimal_Add (a b : Decimal) : Decimal :=
  let e := Z.min (dec_exp a) (dec_exp b) in
  mkDecimal (decimal_rescale a e + decimal_rescale b e) e.

(** [d.LessThan(d2)] is [d.Cmp(d2) == -1]. *)
Definition decimal_LessThan (a b : Decimal) : bool :=
  match decimal_Cmp a b with Lt => true | _ => false end.

(** int64 multiplication, with Go's wrap-around. *)
Definition int64_mul (x y : Z) : Z := int64_of_uint64 ((x * y) mod two64).

Section More_methods.
Variable env : Env.

(** [Wallet.SendQuai]; the record leaves [ID] at its zero value and
    stores neither the signed transaction nor an entry. *)
Definition SendQuai (ctx : Context) (to : string) (amount : Z) : M types.Transaction :=
  let from := Address env in
  let* nonce := wrapV "failed to get nonce" (GetNonce env ctx) in
  let* w := get in
  match SuggestGasPrice env (clock w) with
  | Err e => throw (ErrWrapV "failed to get gas price" e)
  | Ok gasPrice =>
      match SignTx env nonce gasPrice to amount with
      | Err e => throw (ErrWrapV "failed to sign transaction" e)
      | Ok h =>
          let signedTx := types.mkTransaction h nonce gasPrice GasLimit to amount in
          let txRecord :=
            models.mkTransaction 0 from nonce to h (decimal_NewFromBigInt amount 0)
              decimal_Zero (decimal_NewFromInt GasLimit) decimal_Zero decimal_Zero
              (decimal_NewFromBigInt gasPrice 0) models.Generated (clock w) None
              [] None None in
          let* _ := wrapV "failed to create transaction record" (CreateTransactionRecord txRecord) in
          let* _ := wrapV "failed to send transaction" (BroadcastTransaction env signedTx) in
          let* _ := MonitorAndConfirmTransaction env Background signedTx in
          ret signedTx
      end
  end.

(** [wallet.CheckBalance]; [GetBalance] is [w.client.BalanceAt] at the
    time of the call.  The two amounts the error message prints after
    its text are left out. *)
Definition CheckBalance (GetBalance : Z -> res Z)
    (transferEntries : list wtypes.TransferEntry) : M unit :=
  let* w := get in
  match GetBalance (clock w) with
  | Err e => throw (ErrWrapW "failed to get balance" e)
  | Ok balance =>
      let balanceDecimal := decimal_NewFromBigInt balance 0 in
      let totalAmount :=
        fold_left (fun acc entry => decimal_Add acc (wtypes.Value entry))
          transferEntries decimal_Zero in
      match SuggestGasPrice env (clock w) with
      | Err e => throw (ErrWrapW "failed to get gas price" e)
      | Ok gasPrice =>
          let gasPriceDecimal :=
            decimal_Mul (decimal_NewFromBigInt gasPrice 0) (decimal_NewFromInt 10) in
          let estimatedGas :=
            decimal_Mul gasPriceDecimal
              (decimal_NewFromInt (int64_mul GasLimit (Z.of_nat (length transferEntries)))) in
          let totalRequired := decimal_Add totalAmount estimatedGas in
          if decimal_LessThan balanceDecimal totalRequired
          then throw (ErrMsg "insufficient balance for transfers")
          else ret tt
      end
  end.

(** The [for] loop of [runTransfer] over the parsed entries, with its
    counters [(successCnt, failedCnt, processedCnt, invalidCnt)];
    [None] when [log.Fatalf] ends the process on an invalid address. *)
Fixpoint transfer_loop (ctx : Context) (entries : list wtypes.TransferEntry)
    (success failed processed invalid : Z) : M (option (Z * Z * Z * Z)) :=
  match entries with
  | [] => ret (Some (success, failed, processed, invalid))
  | entry :: rest =>
      if negb (IsValidQuaiAddress env (wtypes.ToAddress entry)) then ret None
      else
        let* r := attempt (ProcessEntry env ctx entry) in
        match r with
        | Err err =>
            if errors_Is err ErrAlreadyProcessed
            then transfer_loop ctx rest success failed (processed + 1) invalid
            else transfer_loop ctx rest success (failed + 1) processed invalid
        | Ok _ => transfer_loop ctx rest (success + 1) failed processed invalid
        end
  end.

(** The end of [runTransfer], from the balance check on, under
    [context.Background()]. *)
Definition runTransfer_entries (GetBalance : Z -> res Z)
    (transferEntries : list wtypes.TransferEntry) : M (option (Z * Z * Z * Z)) :=
  let* _ := wrapW "insufficient balance" (CheckBalance GetBalance transferEntries) in
  transfer_loop Background transferEntries 0 0 0 0.

End More_methods.

(* ------------------------------------------------------------------ *)
(** ** Reading aids for the properties *)

(** The number a [decimal.Decimal] stands for, [value * 10 ^ exp]. *)
Definition decimal_val (d : Decimal) : Q :=
  (inject_Z (dec_value d) * inject_Z 10 ^ dec_exp d)%Q.

(** The sum of the entries' values. *)
Definition entries_total_val (entries : list wtypes.TransferEntry) : Q :=
  fold_right (fun e s => (decimal_val (wtypes.Value e) + s)%Q) 0%Q entries.

(** [pendingTxs] holds each transaction under its own hash. *)
Definition pending_keyed (w : Wallet) : Prop :=
  forall k q, pendingTxs w !! k = Some q -> types.Hash (PTx q) = k.

(** [stays R c]: every run of [c] relates its start and end states by [R]. *)
Definition stays (R : Wallet -> Wallet -> Prop) {A} (c : M A) : Prop :=
  forall w, R w (fst (c w)).

Definition keyed_rel (w w' : Wallet) : Prop := pending_keyed w -> pending_keyed w'.

(* ================================================================== *)
(** * Properties *)

(** [same_records w w'] : the two stores have the same ids, each row
    keeping its [tx_hash] and its [tx] blob, and the ghost trace is
    unchanged.  Receipt checks, nonce bookkeeping, status updates and
    the pending-set edits all stay within it. *)
Definition same_records (w w' : Wallet) : Prop :=
  (forall id r, rows (txDAL w) !! id = Some r ->
     exists r', rows (txDAL w') !! id = Some r' /\
       models.TxHash r' = models.TxHash r /\ models.Tx r' = models.Tx r) /\
  (forall id r', rows (txDAL w') !! id = Some r' ->
     exists r, rows (txDAL w) !! id = Some r /\
       models.TxHash r' = models.TxHash r /\ models.Tx r' = models.Tx r) /\
  trace w' = trace w.

Definition keeps {A} (c : M A) : Prop := forall w, same_records w (fst (c w)).

(** The at-most-once invariant: every stored [tx] blob has the row's
    [tx_hash], and every broadcast made for entry [id] is of the hash
    stored in row [id]. *)
Definition records_consistent (w : Wallet) : Prop :=
  forall id r t, rows (txDAL w) !! id = Some r -> models.Tx r = Some t ->
    types.Hash t = models.TxHash r.

Definition broadcasts_recorded (w : Wallet) : Prop :=
  forall id h, EvBroadcast id h ∈ trace w ->
    exists r, rows (txDAL w) !! id = Some r /\ models.TxHash r = h.

Definition Inv (w : Wallet) : Prop := records_consistent w /\ broadcasts_recorded w.

(** Re-runs: a sequence of independent invocations of the entry points,
    each one's error ending that invocation only. *)
Inductive Call :=
| CallProcessEntry (ctx : Context) (entry : wtypes.TransferEntry)
| CallProcessEntryAsync (ctx : Context) (entry : wtypes.TransferEntry)
| CallProcessBatchEntry (ctx : Context) (entries : list wtypes.TransferEntry).

Definition exec_call (env : Env) (c : Call) : M unit :=
  match c with
  | CallProcessEntry ctx e => ProcessEntry env ctx e
  | CallProcessEntryAsync ctx e => ProcessEntryAsync env ctx e
  | CallProcessBatchEntry ctx es => let* _ := ProcessBatchEntry env ctx es in ret tt
  end.

Fixpoint run (env : Env) (calls : list Call) : M unit :=
  match calls with
  | [] => ret tt
  | c :: rest => let* _ := attempt (exec_call env c) in run env rest
  end.

(** ** Sample inputs *)

Definition sample_env (send : option string) (receipt : option types.Receipt)
    (pending : Z) : Env :=
  mkEnv (fun _ => Ok pending) (fun _ => Ok 1000) (fun n _ _ _ => Ok (n + 1))
    (fun _ _ => send) (fun _ _ => receipt) "0x00a1" (fun _ => true).

Definition sample_entry (amount : Z) : wtypes.TransferEntry :=
  wtypes.mkTransferEntry 7 "miner-a" (mkDecimal amount 0) "0x00b2" [11] 3.

Definition sample_tx : types.Transaction :=
  types.mkTransaction 4242 5 1000 GasLimit "0x00b2" 100.

Definition sample_record (status : Z) (e : wtypes.TransferEntry) : models.Transaction :=
  models.mkTransaction 7 "0x00a1" 5 "0x00b2" 4242 (wtypes.Value e) decimal_Zero
    (decimal_NewFromInt GasLimit) decimal_Zero decimal_Zero (decimal_NewFromInt 1000)
    status 90 None [11] (Some sample_tx) (Some e).

Definition sample_wallet (rs : gmap Z models.Transaction) (maxNonce : Z) : Wallet :=
  mkWallet (mkDB rs None 1) maxNonce ∅ ∅ 100 [].

Definition sample_receipt : types.Receipt := types.mkReceipt 1 21000 21000.

(** Two allocations in a row from the background context. *)
Definition two_allocations (env : Env) : M (Z * Z) :=
  let* n1 := GetNonce env Background in
  let* n2 := GetNonce env Background in
  ret (n1, n2).

Definition sample_entry_relabelled : wtypes.TransferEntry :=
  wtypes.mkTransferEntry 7 "miner-b" (mkDecimal 1000 (-1)) "0x00b2" [12; 13] 3.

(** ** One pass of [checkPendingTransactions] as a fold *)

(** The effect of one iteration of [check_each] on the wallet. *)
Definition check_step (env : Env) (w : Wallet) (q : PendingTx) : Wallet :=
  let tx := PTx q in
  match TransactionReceipt env (clock w) (types.Hash tx) with
  | None => w
  | Some rc =>
      match io_error (txDAL w) with
      | Some _ => w
      | None =>
          mkWallet (fst (dal.UpdateTransactionStatus (txDAL w) (clock w) (types.Hash tx)
                           (gasUsedAmount tx rc) rc))
            (maxLocalNonce w) (pendingNonces w ∖ {[types.Nonce tx]})
            (delete (types.Hash tx) (pendingTxs w)) (clock w) (trace w)
      end
  end.

(** [rows_with_hash w0 w h]: every row of [w0] holding hash [h] is still
    there in [w], holding it. *)
Definition rows_with_hash (w0 w : Wallet) (h : Z) : Prop :=
  forall id r, rows (txDAL w0) !! id = Some r -> models.TxHash r = h ->
    exists r', rows (txDAL w) !! id = Some r' /\ models.TxHash r' = h.

(** [confirmed_in w0 w tx rc]: in [w], [tx] has left the pending set,
    its nonce the pending nonces, and each row of [w0] holding its hash
    carries the receipt's outcome, confirmed at [w0]'s time. *)
Definition confirmed_in (w0 w : Wallet) (tx : types.Transaction) (rc : types.Receipt) : Prop :=
  pendingTxs w !! types.Hash tx = None /\ (types.Nonce tx ∉ pendingNonces w) /\
  forall id r, rows (txDAL w0) !! id = Some r -> models.TxHash r = types.Hash tx ->
    exists r', rows (txDAL w) !! id = Some r' /\ models.TxHash r' = types.Hash tx /\
      models.Gas r' = gasUsedAmount tx rc /\ models.Status r' = types.Status rc /\
      models.ConfirmedAt r' = Some (clock w0) /\
      models.GasUsed r' = decimal_NewFromInt (int64_of_uint64 (types.GasUsed rc)) /\
      models.CumulativeGasUsed r' =
        decimal_NewFromInt (int64_of_uint64 (types.CumulativeGasUsed rc)).

(** ** Sample inputs for the monitor and the batch *)

Definition sample_pending_wallet (io : option string) : Wallet :=
  mkWallet (mkDB {[7 := sample_record models.Generated (sample_entry 100)]} io 1) 5 {[5]}
    {[types.Hash sample_tx := mkPendingTx sample_tx (sample_entry 100)]} 100 [].

Definition reverted_receipt : types.Receipt := types.mkReceipt 0 21000 21000.

Definition batch_entry (id : Z) : wtypes.TransferEntry :=
  wtypes.mkTransferEntry id "miner-a" (mkDecimal 100 0) "0x00b2" [11] 3.

Definition batch_tx (id : Z) : types.Transaction :=
  types.mkTransaction (4240 + id) id 1000 GasLimit "0x00b2" 100.

Definition batch_record (id : Z) : models.Transaction :=
  models.mkTransaction id "0x00a1" id "0x00b2" (4240 + id) (mkDecimal 100 0) decimal_Zero
    (decimal_NewFromInt GasLimit) decimal_Zero decimal_Zero (decimal_NewFromInt 1000)
    models.Generated 90 None [11] (Some (batch_tx id)) (Some (batch_entry id)).

Definition batch_wallet : Wallet :=
  mkWallet (mkDB (list_to_map [(7, batch_record 7); (8, batch_record 8); (9, batch_record 9)])
              None 1) 9 ∅ ∅ 100 [].

Definition batch_pending_wallet : Wallet :=
  set_pendingTxs batch_wallet
    (list_to_map [(4247, mkPendingTx (batch_tx 7) (batch_entry 7));
                  (4248, mkPendingTx (batch_tx 8) (batch_entry 8));
                  (4249, mkPendingTx (batch_tx 9) (batch_entry 9))]).

(** ** Sample inputs for the further properties *)

(** The collaborators of [sample_env] (no receipt, broadcasts accepted),
    with an address check that accepts only ["0x00b2"]. *)
Definition strict_env : Env :=
  mkEnv (fun _ => Ok 5) (fun _ => Ok 1000) (fun n _ _ _ => Ok (n + 1))
    (fun _ _ => None) (fun _ _ => None) "0x00a1" (fun a => String.eqb a "0x00b2").

Definition bad_address_entry : wtypes.TransferEntry :=
  wtypes.mkTransferEntry 8 "miner-a" (mkDecimal 100 0) "0xbad" [11] 3.

(** ** Operations that leave the identity of the stored records alone *)

Lemma same_records_refl w : same_records w w.
Proof. repeat split; intros; eauto. Qed.

Lemma same_records_trans w1 w2 w3 :
  same_records w1 w2 -> same_records w2 w3 -> same_records w1 w3.
Proof.
  intros [F1 [B1 T1]] [F2 [B2 T2]]. split; [|split].
  - intros id r H. destruct (F1 _ _ H) as (r2 & H2 & E1 & E2).
    destruct (F2 _ _ H2) as (r3 & H3 & E3 & E4). exists r3. repeat split; congruence.
  - intros id r H. destruct (B2 _ _ H) as (r2 & H2 & E1 & E2).
    destruct (B1 _ _ H2) as (r1 & H1 & E3 & E4). exists r1. repeat split; congruence.
  - congruence.
Qed.

Lemma keeps_ret {A} (a : A) : keeps (ret a).
Proof. intro w. apply same_records_refl. Qed.

Lemma keeps_throw {A} (e : GoError) : keeps (@throw A e).
Proof. intro w. apply same_records_refl. Qed.

Lemma keeps_get : keeps get.
Proof. intro w. apply same_records_refl. Qed.

Lemma keeps_bind {A B} (c : M A) (k : A -> M B) :
  keeps c -> (forall a, keeps (k a)) -> keeps (bind c k).
Proof.
  intros Hc Hk w. unfold bind. specialize (Hc w).
  destruct (c w) as [w1 [a|e]]; simpl in *; [|exact Hc].
  eapply same_records_trans; [exact Hc|apply Hk].
Qed.

Lemma keeps_attempt {A} (c : M A) : keeps c -> keeps (attempt c).
Proof. intros Hc w. unfold attempt. specialize (Hc w). destruct (c w); exact Hc. Qed.

Lemma keeps_wrapW {A} f (c : M A) : keeps c -> keeps (wrapW f c).
Proof. intros Hc w. unfold wrapW. specialize (Hc w). destruct (c w) as [? []]; exact Hc. Qed.

Lemma keeps_wrapV {A} f (c : M A) : keeps c -> keeps (wrapV f c).
Proof. intros Hc w. unfold wrapV. specialize (Hc w). destruct (c w) as [? []]; exact Hc. Qed.

Lemma keeps_modify f : (forall w, same_records w (f w)) -> keeps (modify f).
Proof. intros Hf w. apply Hf. Qed.

Lemma same_records_rows_eq w w' :
  txDAL w' = txDAL w -> trace w' = trace w -> same_records w w'.
Proof. intros E T. unfold same_records. rewrite E, T. apply same_records_refl. Qed.

Lemma keeps_sleep ctx d : keeps (sleep ctx d).
Proof.
  intro w. unfold sleep. destruct ctx; [|destruct (_ <=? _)]; simpl;
    apply same_records_rows_eq; reflexivity.
Qed.

Lemma keeps_set_pendingTxs f :
  keeps (modify (fun w => set_pendingTxs w (f w))).
Proof. apply keeps_modify. intro w. apply same_records_rows_eq; reflexivity. Qed.

Lemma keeps_set_clock f : keeps (modify (fun w => set_clock w (f w))).
Proof. apply keeps_modify. intro w. apply same_records_rows_eq; reflexivity. Qed.

Lemma keeps_cleanupConfirmedNonces n : keeps (cleanupConfirmedNonces n).
Proof. apply keeps_modify. intro w. apply same_records_rows_eq; reflexivity. Qed.

Lemma keeps_UpdateTransactionStatus h g rc : keeps (UpdateTransactionStatus h g rc).
Proof.
  intro w. unfold UpdateTransactionStatus, dal.UpdateTransactionStatus, gorm_Updates_by_hash.
  destruct (io_error (txDAL w)) eqn:Eio; simpl.
  - apply same_records_rows_eq; simpl; [destruct (txDAL w); reflexivity|reflexivity].
  - split; [|split]; simpl; [| |reflexivity].
    + intros id r H. rewrite lookup_fmap, H. simpl.
      eexists; split; [reflexivity|]. case_match; simpl; auto.
    + intros id r' H. rewrite lookup_fmap in H.
      destruct (rows (txDAL w) !! id) as [r|] eqn:E; simpl in H; [|discriminate].
      inversion H; subst. exists r. split; [reflexivity|]. case_match; simpl; auto.
Qed.

(** Syntax-directed decomposition of a computation into its steps. *)
Ltac keeps_base :=
  lazymatch goal with
  | |- keeps (bind _ _) => apply keeps_bind; [|intro]
  | |- keeps (attempt _) => apply keeps_attempt
  | |- keeps (wrapW _ _) => apply keeps_wrapW
  | |- keeps (wrapV _ _) => apply keeps_wrapV
  | |- keeps (ret _) => apply keeps_ret
  | |- keeps (throw _) => apply keeps_throw
  | |- keeps get => apply keeps_get
  | |- keeps (match ?x with _ => _ end) => destruct x
  | |- keeps (sleep _ _) => apply keeps_sleep
  | |- keeps (modify (fun w => set_pendingTxs w _)) => apply keeps_set_pendingTxs
  | |- keeps (modify (fun w => set_clock w _)) => apply keeps_set_clock
  | |- keeps (cleanupConfirmedNonces _) => apply keeps_cleanupConfirmedNonces
  | |- keeps (UpdateTransactionStatus _ _ _) => apply keeps_UpdateTransactionStatus
  end.

Lemma keeps_GetTransactionReceipt env h : keeps (GetTransactionReceipt env h).
Proof. unfold GetTransactionReceipt. repeat keeps_base. Qed.

Lemma keeps_BroadcastTransaction env tx : keeps (BroadcastTransaction env tx).
Proof. unfold BroadcastTransaction. repeat keeps_base. Qed.

Lemma keeps_CheckTransactionAndConfirm env ctx tx :
  keeps (CheckTransactionAndConfirm env ctx tx).
Proof.
  unfold CheckTransactionAndConfirm.
  repeat (keeps_base || apply keeps_GetTransactionReceipt).
Qed.

Lemma keeps_WaitForReceipt_loop env ctx h n : keeps (WaitForReceipt_loop env ctx h n).
Proof.
  revert ctx h. induction n; intros ctx h; simpl; [apply keeps_throw|].
  repeat (keeps_base || apply keeps_GetTransactionReceipt || apply IHn).
Qed.

Lemma keeps_MonitorAndConfirmTransaction env ctx tx :
  keeps (MonitorAndConfirmTransaction env ctx tx).
Proof.
  unfold MonitorAndConfirmTransaction, WaitForReceipt.
  repeat (keeps_base || apply keeps_WaitForReceipt_loop).
Qed.

Ltac keeps_step :=
  first
    [ keeps_base
    | lazymatch goal with
      | |- keeps (GetTransactionReceipt _ _) => apply keeps_GetTransactionReceipt
      | |- keeps (BroadcastTransaction _ _) => apply keeps_BroadcastTransaction
      | |- keeps (CheckTransactionAndConfirm _ _ _) => apply keeps_CheckTransactionAndConfirm
      | |- keeps (WaitForReceipt_loop _ _ _ _) => apply keeps_WaitForReceipt_loop
      | |- keeps (MonitorAndConfirmTransaction _ _ _) => apply keeps_MonitorAndConfirmTransaction
      end ].

Lemma keeps_check_each env l : keeps (check_each env l).
Proof. induction l; simpl; repeat (keeps_step || apply IHl). Qed.

Lemma keeps_checkPendingTransactions env : keeps (checkPendingTransactions env).
Proof. unfold checkPendingTransactions. repeat (keeps_step || apply keeps_check_each). Qed.

Lemma keeps_monitor_loop env n : keeps (monitor_loop env n).
Proof.
  induction n; simpl; repeat (keeps_step || apply keeps_checkPendingTransactions || apply IHn).
Qed.

Lemma keeps_MonitorAllTransactions env d : keeps (MonitorAllTransactions env d).
Proof.
  unfold MonitorAllTransactions.
  repeat (keeps_step || apply keeps_checkPendingTransactions || apply keeps_monitor_loop).
Qed.

(** ** Unfolding the monad *)

Lemma bind_unfold {A B} (c : M A) (k : A -> M B) w :
  bind c k w = match c w with
               | (w', Ok a) => k a w'
               | (w', Err e) => (w', Err e)
               end.
Proof. reflexivity. Qed.

Lemma wrapW_unfold {A} f (c : M A) w :
  wrapW f c w = match c w with
                | (w', Err e) => (w', Err (ErrWrapW f e))
                | r => r
                end.
Proof. reflexivity. Qed.

(** ** The at-most-once invariant *)

Lemma Inv_same w w' : Inv w -> same_records w w' -> Inv w'.
Proof.
  intros [C B] [F [Bk T]]. split.
  - intros id r' t H Ht. destruct (Bk _ _ H) as (r & Hr & E1 & E2).
    rewrite E1. apply (C id r t Hr). congruence.
  - intros id h Hin. rewrite T in Hin. destruct (B _ _ Hin) as (r & Hr & E).
    destruct (F _ _ Hr) as (r' & Hr' & E1 & _). exists r'. split; congruence.
Qed.

Lemma Inv_keeps {A} (c : M A) w : keeps c -> Inv w -> Inv (fst (c w)).
Proof. intros K I. eapply Inv_same; [exact I|apply K]. Qed.

Lemma Inv_broadcast w id h :
  Inv w -> (exists r, rows (txDAL w) !! id = Some r /\ models.TxHash r = h) ->
  Inv (add_event w (EvBroadcast id h)).
Proof.
  intros [C B] Hr. split; [exact C|].
  intros id' h' Hin. simpl in Hin. apply elem_of_app in Hin as [Hin|Hin].
  - exact (B _ _ Hin).
  - apply list_elem_of_singleton in Hin. inversion Hin; subst. exact Hr.
Qed.

(** [Wallet.GetTransactionByID] reads the store and nothing else; a
    transaction it returns is the [tx] blob of row [id]. *)
Lemma GetTransactionByID_spec id w :
  fst (GetTransactionByID id w) = w /\
  forall t se st, snd (GetTransactionByID id w) = Ok (Some t, se, st) ->
    exists rr, rows (txDAL w) !! id = Some rr /\ models.Tx rr = Some t /\
               models.Entry rr = se /\ models.Status rr = st.
Proof.
  unfold GetTransactionByID, dal.GetTransactionByID, gorm_Scan_by_id, bind, get.
  destruct (io_error (txDAL w)); simpl; [split; [reflexivity|discriminate]|].
  destruct (rows (txDAL w) !! id) as [r|] eqn:E; simpl; [|split; [reflexivity|discriminate]].
  destruct (models.Tx r) as [t0|] eqn:Et; simpl; [|split; [reflexivity|discriminate]].
  destruct (models.Entry r) as [e0|] eqn:Ee; simpl; split; try reflexivity; try discriminate.
  intros t se st H. inversion H; subst. exists r. auto.
Qed.

(** [Wallet.GetTransactionByID] never answers [(nil, nil, 0)]: the DAL's
    [Scan] reports no [ErrRecordNotFound], so the branch that would lead
    [obtain_signed_tx] to [CreateTransaction] is never taken. *)
Lemma GetTransactionByID_not_absent id w se st :
  snd (GetTransactionByID id w) <> Ok (None, se, st).
Proof.
  unfold GetTransactionByID, dal.GetTransactionByID, gorm_Scan_by_id, bind, get.
  destruct (io_error (txDAL w)); simpl; [discriminate|].
  destruct (rows (txDAL w) !! id) as [r|]; simpl; [|discriminate].
  destruct (models.Tx r); simpl; [|discriminate].
  destruct (models.Entry r); simpl; discriminate.
Qed.

(** The lookup path: a stored, unconfirmed, matching record yields its
    stored transaction, with the wallet untouched. *)
Lemma obtain_stored env ctx e w r t e' :
  io_error (txDAL w) = None ->
  rows (txDAL w) !! wtypes.ID e = Some r ->
  models.Status r <> models.Confirmed ->
  models.Tx r = Some t -> models.Entry r = Some e' ->
  CompareEntries (Some e) (Some e') = true ->
  obtain_signed_tx env ctx e w = (w, Ok t).
Proof.
  intros Hio Hr Hs Ht He Hc.
  unfold obtain_signed_tx, GetTransactionByID, dal.GetTransactionByID, gorm_Scan_by_id,
    bind, wrapW, get.
  rewrite Hio, Hr. cbn -[CompareEntries]. rewrite Ht, He. cbn -[CompareEntries].
  destruct (Z.eqb_spec (models.Status r) models.Confirmed); [contradiction|].
  rewrite Hc. reflexivity.
Qed.

Lemma obtain_post env ctx e w :
  Inv w ->
  let '(w1, r) := obtain_signed_tx env ctx e w in
  Inv w1 /\ forall t, r = Ok t ->
    exists rr, rows (txDAL w1) !! wtypes.ID e = Some rr /\ models.TxHash rr = types.Hash t.
Proof.
  intros I. unfold obtain_signed_tx. rewrite bind_unfold, wrapW_unfold.
  destruct (GetTransactionByID_spec (wtypes.ID e) w) as [Hw Hget].
  destruct (GetTransactionByID (wtypes.ID e) w) as [w1 r] eqn:EG.
  simpl in Hw, Hget. subst w1.
  destruct r as [[[st0 se] st]|err]; [|split; [exact I|discriminate]].
  destruct (Z.eqb st models.Confirmed); [split; [exact I|discriminate]|].
  destruct (_ && _); [split; [exact I|discriminate]|].
  destruct st0 as [t0|].
  - split; [exact I|]. intros t Ht. inversion Ht; subst t0.
    destruct (Hget t se st eq_refl) as (rr & Hrr & Htx & _).
    exists rr. split; [exact Hrr|]. symmetry. exact (proj1 I _ _ _ Hrr Htx).
  - exfalso. apply (GetTransactionByID_not_absent (wtypes.ID e) w se st).
    rewrite EG. reflexivity.
Qed.

(** What follows the broadcast in [ProcessEntry] and [ProcessEntryAsync]. *)
Lemma keeps_ProcessEntry_tail env ctx t :
  keeps (let* r := attempt (BroadcastTransaction env t) in
         match r with
         | Ok _ => MonitorAndConfirmTransaction env ctx t
         | Err err =>
             if strings_Contains (error_text err) "nonce too low" then
               wrapW "failed to check and confirm transaction: receipt %w and nonce too low"
                 (CheckTransactionAndConfirm env ctx t)
             else if strings_Contains (error_text err) "already known" then
               MonitorAndConfirmTransaction env ctx t
             else throw (ErrWrapW "failed to send transaction" err)
         end).
Proof. repeat keeps_step. Qed.

Lemma keeps_ProcessEntryAsync_tail env t :
  keeps (let* r := attempt (BroadcastTransaction env t) in
         match r with
         | Ok _ => ret tt
         | Err err =>
             if negb (strings_Contains (error_text err) "nonce too low") &&
                negb (strings_Contains (error_text err) "already known") then
               let* _ := modify (fun w => set_pendingTxs w
                                   (delete (types.Hash t) (pendingTxs w))) in
               throw (ErrWrapW "failed to broadcast transaction" err)
             else ret tt
         end).
Proof. repeat keeps_step. Qed.

Lemma ProcessEntry_Inv env ctx e w : Inv w -> Inv (fst (ProcessEntry env ctx e w)).
Proof.
  intros I. unfold ProcessEntry. rewrite bind_unfold.
  pose proof (obtain_post env ctx e w I) as P.
  destruct (obtain_signed_tx env ctx e w) as [w1 [t|err]]; destruct P as [I1 P]; [|exact I1].
  rewrite bind_unfold. unfold emit at 1, modify at 1. cbv beta iota.
  apply Inv_keeps; [apply keeps_ProcessEntry_tail|].
  apply Inv_broadcast; [exact I1|]. apply P. reflexivity.
Qed.

Lemma ProcessEntryAsync_Inv env ctx e w : Inv w -> Inv (fst (ProcessEntryAsync env ctx e w)).
Proof.
  intros I. unfold ProcessEntryAsync. rewrite bind_unfold.
  pose proof (obtain_post env ctx e w I) as P.
  destruct (obtain_signed_tx env ctx e w) as [w1 [t|err]]; destruct P as [I1 P]; [|exact I1].
  rewrite bind_unfold. unfold modify at 1. cbv beta iota.
  rewrite bind_unfold. unfold emit at 1, modify at 1. cbv beta iota.
  apply Inv_keeps; [apply keeps_ProcessEntryAsync_tail|].
  apply Inv_broadcast.
  - eapply Inv_same; [exact I1|]. apply same_records_rows_eq; reflexivity.
  - simpl. apply P. reflexivity.
Qed.

Lemma submit_entries_Inv env ctx es i f p w :
  Inv w -> Inv (fst (submit_entries env ctx es i f p w)).
Proof.
  revert i f p w. induction es as [|e es IH]; intros i f p w I; simpl; [exact I|].
  destruct (negb _); [apply IH; exact I|].
  rewrite bind_unfold. unfold attempt at 1.
  pose proof (ProcessEntryAsync_Inv env ctx e w I) as I1.
  destruct (ProcessEntryAsync env ctx e w) as [w1 r]. simpl in I1.
  destruct r as [u|err]; [apply IH; exact I1|].
  destruct (errors_Is _ _); apply IH; exact I1.
Qed.

Lemma ProcessBatchEntry_Inv env ctx es w : Inv w -> Inv (fst (ProcessBatchEntry env ctx es w)).
Proof.
  intros I. unfold ProcessBatchEntry. rewrite bind_unfold.
  pose proof (submit_entries_Inv env ctx es 0 0 0 w I) as I1.
  destruct (submit_entries env ctx es 0 0 0 w) as [w1 [[[a b] c]|err]]; simpl in I1;
    [|exact I1].
  apply Inv_keeps; [|exact I1]. repeat (keeps_step || apply keeps_MonitorAllTransactions).
Qed.

Lemma exec_call_Inv env c w : Inv w -> Inv (fst (exec_call env c w)).
Proof.
  destruct c; simpl.
  - apply ProcessEntry_Inv.
  - apply ProcessEntryAsync_Inv.
  - intros I. rewrite bind_unfold. pose proof (ProcessBatchEntry_Inv env ctx entries w I) as I1.
    destruct (ProcessBatchEntry env ctx entries w) as [w1 [|]]; exact I1.
Qed.

Lemma run_Inv env cs w : Inv w -> Inv (fst (run env cs w)).
Proof.
  revert w. induction cs as [|c cs IH]; intros w I; simpl; [exact I|].
  rewrite bind_unfold. unfold attempt at 1.
  pose proof (exec_call_Inv env c w I) as I1.
  destruct (exec_call env c w) as [w1 r]. apply IH. exact I1.
Qed.

(** ** C1 *)

(** C1: a stored, unconfirmed, matching record is reused: the lookup
    returns its transaction with nothing else done (no [CreateTransaction],
    so no signing), and the only event [ProcessEntry] and
    [ProcessEntryAsync] add to the trace is the broadcast of the stored
    hash.  Over any sequence of calls to [ProcessEntry],
    [ProcessEntryAsync] and [ProcessBatchEntry], starting from a store
    whose [tx] blobs carry their rows' hashes, all broadcasts made for one
    entry id are of a single hash. *)
Theorem C1_entry_signed_at_most_once :
  (forall env ctx e w r t e',
     io_error (txDAL w) = None ->
     rows (txDAL w) !! wtypes.ID e = Some r ->
     models.Status r <> models.Confirmed ->
     models.Tx r = Some t -> models.Entry r = Some e' ->
     CompareEntries (Some e) (Some e') = true ->
     obtain_signed_tx env ctx e w = (w, Ok t) /\
     trace (fst (ProcessEntry env ctx e w)) =
       trace w ++ [EvBroadcast (wtypes.ID e) (types.Hash t)] /\
     trace (fst (ProcessEntryAsync env ctx e w)) =
       trace w ++ [EvBroadcast (wtypes.ID e) (types.Hash t)]) /\
  (forall env calls w,
     records_consistent w -> trace w = [] ->
     forall id h1 h2,
       EvBroadcast id h1 ∈ trace (fst (run env calls w)) ->
       EvBroadcast id h2 ∈ trace (fst (run env calls w)) -> h1 = h2).
Proof.
  split.
  - intros env ctx e w r t e' Hio Hr Hs Ht He Hc.
    pose proof (obtain_stored env ctx e w r t e' Hio Hr Hs Ht He Hc) as O.
    split; [exact O|split].
    + unfold ProcessEntry. rewrite bind_unfold, O, bind_unfold.
      unfold emit at 1, modify at 1. cbv beta iota.
      destruct (keeps_ProcessEntry_tail env ctx t
                  (add_event w (EvBroadcast (wtypes.ID e) (types.Hash t)))) as (_ & _ & T).
      rewrite T. reflexivity.
    + unfold ProcessEntryAsync. rewrite bind_unfold, O, bind_unfold.
      unfold modify at 1. cbv beta iota. rewrite bind_unfold.
      unfold emit at 1, modify at 1. cbv beta iota.
      match goal with |- trace (fst (_ ?w1)) = _ =>
        destruct (keeps_ProcessEntryAsync_tail env t w1) as (_ & _ & T) end.
      rewrite T. reflexivity.
  - intros env calls w C T id h1 h2 H1 H2.
    assert (I : Inv w).
    { split; [exact C|]. intros id' h' Hin. rewrite T in Hin. inversion Hin. }
    destruct (run_Inv env calls w I) as [_ B].
    destruct (B _ _ H1) as (r1 & R1 & E1). destruct (B _ _ H2) as (r2 & R2 & E2).
    congruence.
Qed.

(** C1, at the stored record of entry 7. *)
Lemma C1_witness :
  obtain_signed_tx (sample_env None None 5) Background (sample_entry 100)
    (sample_wallet {[7 := sample_record models.Generated (sample_entry 100)]} 5) =
    (sample_wallet {[7 := sample_record models.Generated (sample_entry 100)]} 5, Ok sample_tx) /\
  (forall id h1 h2,
     EvBroadcast id h1 ∈ trace (fst (run (sample_env None None 5)
       [CallProcessEntry Background (sample_entry 100);
        CallProcessEntryAsync Background (sample_entry 100)]
       (sample_wallet {[7 := sample_record models.Generated (sample_entry 100)]} 5))) ->
     EvBroadcast id h2 ∈ trace (fst (run (sample_env None None 5)
       [CallProcessEntry Background (sample_entry 100);
        CallProcessEntryAsync Background (sample_entry 100)]
       (sample_wallet {[7 := sample_record models.Generated (sample_entry 100)]} 5))) ->
     h1 = h2).
Proof.
  split.
  - apply (proj1 C1_entry_signed_at_most_once _ _ _ _
             (sample_record models.Generated (sample_entry 100)) sample_tx (sample_entry 100));
      try reflexivity; discriminate.
  - apply (proj2 C1_entry_signed_at_most_once); [|reflexivity].
    intros id r t H Ht. unfold sample_wallet in H. simpl in H.
    destruct (decide (id = 7)) as [->|Hne].
    + rewrite lookup_singleton_eq in H. inversion H; subst. inversion Ht; subst. reflexivity.
    + rewrite lookup_singleton_ne in H by congruence. discriminate.
Defined.

(** ** C2 *)

(** C2 (at a missing id): GORM's [Scan] finds no row and sets no error,
    so [TransactionDAL.GetTransactionByID] returns the zero-valued record
    rather than [(nil, nil)]; [Wallet.GetTransactionByID] then fails to
    decode its empty [tx] text, and [ProcessEntry] fails before it could
    create a transaction. *)
Theorem C2_missing_id_lookup :
  dal.GetTransactionByID (mkDB ∅ None 1) 7 = Ok (Some models.zero) /\
  GetTransactionByID 7 (sample_wallet ∅ 0) =
    (sample_wallet ∅ 0, Err (ErrWrapV "failed to deserialize transaction"
                               (ErrMsg "unexpected end of JSON input"))) /\
  ProcessEntry (sample_env None None 5) Background (sample_entry 100) (sample_wallet ∅ 0) =
    (sample_wallet ∅ 0,
     Err (ErrWrapW "failed to get transaction"
            (ErrWrapV "failed to deserialize transaction"
               (ErrMsg "unexpected end of JSON input")))).
Proof. split; [|split]; reflexivity. Qed.

(** ** C3 and C4 *)

(** Below the top of the uint64 range, a successful [GetNonce] returns
    [max(pendingNonce, maxLocalNonce + 1)], records it as [maxLocalNonce]
    and adds it to [pendingNonces]. *)
Lemma GetNonce_max env ctx w w' n :
  0 <= maxLocalNonce w < two64 - 1 ->
  GetNonce env ctx w = (w', Ok n) ->
  exists pendingNonce,
    PendingNonceAt env (clock w) = Ok pendingNonce /\
    n = Z.max pendingNonce (maxLocalNonce w + 1) /\
    maxLocalNonce w' = n /\ n ∈ pendingNonces w'.
Proof.
  intros Hb. unfold GetNonce, bind, get, ret, throw, modify.
  destruct (PendingNonceAt env (clock w)) as [p|e]; [|discriminate].
  assert (Hm : (if p <=? maxLocalNonce w then u64_add (maxLocalNonce w) 1 else p)
               = Z.max p (maxLocalNonce w + 1)).
  { unfold u64_add, two64 in *. destruct (Z.leb_spec p (maxLocalNonce w));
      [rewrite Z.mod_small by lia|]; lia. }
  rewrite Hm. unfold sleep. intros H. exists p. split; [reflexivity|].
  destruct ctx as [|dl]; [|destruct (dl <=? _)]; simpl in H; inversion H; subst;
    simpl; repeat split; set_solver.
Qed.

(** C3: below the top of the uint64 range, a successful [GetNonce]
    returns [max(pendingNonce, maxLocalNonce + 1)], records it as
    [maxLocalNonce] and adds it to [pendingNonces]; but at
    [maxLocalNonce = 2^64 - 1] (network pending nonce 5) the uint64 sum
    [maxLocalNonce + 1] wraps to 0 and [GetNonce] returns 0, not
    [max(5, 2^64)]. *)
Theorem C3_nonce_wraps_at_uint64_max :
  (forall env ctx w w' n,
     0 <= maxLocalNonce w < two64 - 1 ->
     GetNonce env ctx w = (w', Ok n) ->
     exists pendingNonce,
       PendingNonceAt env (clock w) = Ok pendingNonce /\
       n = Z.max pendingNonce (maxLocalNonce w + 1) /\
       maxLocalNonce w' = n /\ (n ∈ pendingNonces w')) /\
  snd (GetNonce (sample_env None None 5) Background (sample_wallet ∅ (two64 - 1))) = Ok 0 /\
  maxLocalNonce (fst (GetNonce (sample_env None None 5) Background
                        (sample_wallet ∅ (two64 - 1)))) = 0.
Proof. split; [exact GetNonce_max|split; reflexivity]. Qed.

(** C3, at [maxLocalNonce = 5] and network pending nonce 5. *)
Lemma C3_witness :
  exists pendingNonce,
    PendingNonceAt (sample_env None None 5) (clock (sample_wallet ∅ 5)) = Ok pendingNonce /\
    6 = Z.max pendingNonce (maxLocalNonce (sample_wallet ∅ 5) + 1) /\
    maxLocalNonce (fst (GetNonce (sample_env None None 5) Background (sample_wallet ∅ 5))) = 6 /\
    (6 ∈ pendingNonces (fst (GetNonce (sample_env None None 5) Background (sample_wallet ∅ 5)))).
Proof.
  apply (proj1 C3_nonce_wraps_at_uint64_max (sample_env None None 5) Background
           (sample_wallet ∅ 5)
           (fst (GetNonce (sample_env None None 5) Background (sample_wallet ∅ 5))) 6).
  - unfold sample_wallet, two64. simpl. lia.
  - vm_compute. reflexivity.
Defined.

(** C4: below the top of the uint64 range, two successive successful
    allocations return increasing nonces, each at least the network
    pending nonce it observed; but with the network reporting
    [2^64 - 1] to a fresh wallet, the first allocation returns
    [2^64 - 1] and the second wraps to 0, below the first and below the
    pending nonce it observed. *)
Theorem C4_allocations_not_increasing_at_wrap :
  (forall env ctx w w1 w2 n1 n2,
     0 <= maxLocalNonce w < two64 - 1 -> maxLocalNonce w1 < two64 - 1 ->
     GetNonce env ctx w = (w1, Ok n1) -> GetNonce env ctx w1 = (w2, Ok n2) ->
     n1 < n2 /\
     (exists p1, PendingNonceAt env (clock w) = Ok p1 /\ p1 <= n1) /\
     (exists p2, PendingNonceAt env (clock w1) = Ok p2 /\ p2 <= n2)) /\
  snd (two_allocations (sample_env None None (two64 - 1)) (sample_wallet ∅ 0)) =
    Ok (two64 - 1, 0).
Proof.
  split; [|reflexivity].
  intros env ctx w w1 w2 n1 n2 Hb Hb1 H1 H2.
  destruct (GetNonce_max env ctx w w1 n1 Hb H1) as (p1 & Hp1 & E1 & M1 & _).
  assert (Hb1' : 0 <= maxLocalNonce w1 < two64 - 1) by lia.
  destruct (GetNonce_max env ctx w1 w2 n2 Hb1' H2) as (p2 & Hp2 & E2 & _ & _).
  split; [lia|]. split; eexists; split; eauto; lia.
Qed.

(** C4, at a fresh wallet and network pending nonce 5. *)
Lemma C4_witness :
  5 < 6 /\
  (exists p1, PendingNonceAt (sample_env None None 5) (clock (sample_wallet ∅ 0)) = Ok p1 /\
              p1 <= 5) /\
  (exists p2, PendingNonceAt (sample_env None None 5)
                (clock (fst (GetNonce (sample_env None None 5) Background (sample_wallet ∅ 0))))
              = Ok p2 /\ p2 <= 6).
Proof.
  apply (proj1 C4_allocations_not_increasing_at_wrap (sample_env None None 5) Background
           (sample_wallet ∅ 0)
           (fst (GetNonce (sample_env None None 5) Background (sample_wallet ∅ 0)))
           (fst (GetNonce (sample_env None None 5) Background
                   (fst (GetNonce (sample_env None None 5) Background (sample_wallet ∅ 0)))))
           5 6).
  - unfold sample_wallet, two64. simpl. lia.
  - vm_compute. reflexivity.
  - vm_compute. reflexivity.
  - vm_compute. reflexivity.
Defined.

(** ** Stored records at [ProcessEntry] *)

Lemma CompareEntries_fields a b :
  CompareEntries (Some a) (Some b) = true <->
  wtypes.ID a = wtypes.ID b /\ wtypes.MinerAccountID a = wtypes.MinerAccountID b /\
  wtypes.ToAddress a = wtypes.ToAddress b /\
  decimal_Equal (wtypes.Value a) (wtypes.Value b) = true.
Proof. simpl. rewrite !andb_true_iff, !Z.eqb_eq, String.eqb_eq. tauto. Qed.

Lemma obtain_stored_checks env ctx e w r t e' :
  io_error (txDAL w) = None ->
  rows (txDAL w) !! wtypes.ID e = Some r ->
  models.Tx r = Some t -> models.Entry r = Some e' ->
  obtain_signed_tx env ctx e w =
    (w, if Z.eqb (models.Status r) models.Confirmed then Err ErrAlreadyProcessed
        else if CompareEntries (Some e) (Some e') then Ok t
        else Err (ErrEntryMismatch (wtypes.ID e))).
Proof.
  intros Hio Hr Ht He.
  unfold obtain_signed_tx, GetTransactionByID, dal.GetTransactionByID, gorm_Scan_by_id,
    bind, wrapW, get.
  rewrite Hio, Hr. cbn -[CompareEntries]. rewrite Ht, He. cbn -[CompareEntries].
  destruct (Z.eqb (models.Status r) models.Confirmed); [reflexivity|].
  destruct (CompareEntries (Some e) (Some e')); reflexivity.
Qed.

Lemma ProcessEntry_obtain_err env ctx e w err :
  obtain_signed_tx env ctx e w = (w, Err err) ->
  ProcessEntry env ctx e w = (w, Err err) /\ ProcessEntryAsync env ctx e w = (w, Err err).
Proof.
  intros H. unfold ProcessEntry, ProcessEntryAsync. rewrite !bind_unfold, H. split; reflexivity.
Qed.

(** C5 (counterexample): a Confirmed record for id 7 with amount 100,
    resubmitted with amount 200, is refused as already processed, not
    as a mismatch: the status check comes first. *)
Lemma C5_confirmed_record_not_mismatch :
  ProcessEntry (sample_env None None 5) Background (sample_entry 200)
    (sample_wallet {[7 := sample_record models.Confirmed (sample_entry 100)]} 5) =
  (sample_wallet {[7 := sample_record models.Confirmed (sample_entry 100)]} 5,
   Err ErrAlreadyProcessed).
Proof. reflexivity. Qed.

(** C5 (amended): when the stored record for the entry's id decodes to a
    transaction and an entry that differ from the supplied entry in id,
    MinerAccountID, recipient or amount, [ProcessEntry] and
    [ProcessEntryAsync] fail with the entry-mismatch error if the record
    is not Confirmed, and with [ErrAlreadyProcessed] if it is; in both
    cases the wallet is left as it was: nothing is created, inserted,
    signed or broadcast. *)
Theorem C5_mismatch_rejected_before_broadcast env ctx e w r t e' :
  io_error (txDAL w) = None ->
  rows (txDAL w) !! wtypes.ID e = Some r ->
  models.Tx r = Some t -> models.Entry r = Some e' ->
  (wtypes.ID e <> wtypes.ID e' \/
   wtypes.MinerAccountID e <> wtypes.MinerAccountID e' \/
   wtypes.ToAddress e <> wtypes.ToAddress e' \/
   decimal_Equal (wtypes.Value e) (wtypes.Value e') = false) ->
  let err := if Z.eqb (models.Status r) models.Confirmed then ErrAlreadyProcessed
             else ErrEntryMismatch (wtypes.ID e) in
  ProcessEntry env ctx e w = (w, Err err) /\ ProcessEntryAsync env ctx e w = (w, Err err).
Proof.
  intros Hio Hr Ht He Hd err. apply ProcessEntry_obtain_err.
  rewrite (obtain_stored_checks env ctx e w r t e' Hio Hr Ht He). unfold err.
  destruct (Z.eqb (models.Status r) models.Confirmed); [reflexivity|].
  destruct (CompareEntries (Some e) (Some e')) eqn:Hc; [|reflexivity].
  apply CompareEntries_fields in Hc. exfalso.
  destruct Hc as (H1 & H2 & H3 & H4). destruct Hd as [?|[?|[?|?]]]; congruence.
Qed.

(** C5, at the stored record of id 7 with amount 100, resubmitted with
    amount 200. *)
Lemma C5_witness :
  ProcessEntry (sample_env None None 5) Background (sample_entry 200)
    (sample_wallet {[7 := sample_record models.Generated (sample_entry 100)]} 5) =
  (sample_wallet {[7 := sample_record models.Generated (sample_entry 100)]} 5,
   Err (ErrEntryMismatch 7)) /\
  ProcessEntryAsync (sample_env None None 5) Background (sample_entry 200)
    (sample_wallet {[7 := sample_record models.Generated (sample_entry 100)]} 5) =
  (sample_wallet {[7 := sample_record models.Generated (sample_entry 100)]} 5,
   Err (ErrEntryMismatch 7)).
Proof.
  exact (C5_mismatch_rejected_before_broadcast (sample_env None None 5) Background
           (sample_entry 200)
           (sample_wallet {[7 := sample_record models.Generated (sample_entry 100)]} 5)
           (sample_record models.Generated (sample_entry 100)) sample_tx (sample_entry 100)
           eq_refl eq_refl eq_refl eq_refl (or_intror (or_intror (or_intror eq_refl)))).
Defined.

(** ** C10 *)

(** C10: [CompareEntries] on two entries holds iff they agree on ID,
    MinerAccountID, ToAddress and Value (by [decimal.Equal]), whatever
    their MinerAccount and AggregateIds; with a nil argument it holds iff
    both are nil; and a non-Confirmed stored record whose entry agrees
    with the supplied one on the four fields is reused as is. *)
Theorem C10_compare_entries_four_fields :
  (forall a b, CompareEntries (Some a) (Some b) = true <->
     wtypes.ID a = wtypes.ID b /\ wtypes.MinerAccountID a = wtypes.MinerAccountID b /\
     wtypes.ToAddress a = wtypes.ToAddress b /\
     decimal_Equal (wtypes.Value a) (wtypes.Value b) = true) /\
  (forall a b, a = None \/ b = None ->
     (CompareEntries a b = true <-> a = None /\ b = None)) /\
  (forall env ctx e w r t e',
     io_error (txDAL w) = None ->
     rows (txDAL w) !! wtypes.ID e = Some r ->
     models.Status r <> models.Confirmed ->
     models.Tx r = Some t -> models.Entry r = Some e' ->
     wtypes.ID e = wtypes.ID e' -> wtypes.MinerAccountID e = wtypes.MinerAccountID e' ->
     wtypes.ToAddress e = wtypes.ToAddress e' ->
     decimal_Equal (wtypes.Value e) (wtypes.Value e') = true ->
     obtain_signed_tx env ctx e w = (w, Ok t)).
Proof.
  split; [exact CompareEntries_fields|split].
  - intros [a|] [b|] [H|H]; simpl; split; intros HH;
      try discriminate; try (destruct HH; discriminate); tauto.
  - intros env ctx e w r t e' Hio Hr Hs Ht He H1 H2 H3 H4.
    apply (obtain_stored env ctx e w r t e'); auto.
    apply CompareEntries_fields. auto.
Qed.

(** C10, at a stored entry differing from the resubmitted one in
    MinerAccount, AggregateIds and the scale of its amount. *)
Lemma C10_witness :
  CompareEntries (Some (sample_entry 100)) (Some sample_entry_relabelled) = true /\
  obtain_signed_tx (sample_env None None 5) Background sample_entry_relabelled
    (sample_wallet {[7 := sample_record models.Generated (sample_entry 100)]} 5) =
  (sample_wallet {[7 := sample_record models.Generated (sample_entry 100)]} 5, Ok sample_tx).
Proof.
  split.
  - apply (proj1 C10_compare_entries_four_fields). vm_compute. repeat split.
  - apply (proj2 (proj2 C10_compare_entries_four_fields) _ _ _ _
             (sample_record models.Generated (sample_entry 100)) sample_tx (sample_entry 100));
      try reflexivity; discriminate.
Defined.

(** ** C6 *)

Lemma CheckTransactionAndConfirm_no_receipt env ctx t w :
  TransactionReceipt env (clock w) (types.Hash t) = None ->
  CheckTransactionAndConfirm env ctx t w = (w, Err (ErrMsg "not found")).
Proof.
  intros H. unfold CheckTransactionAndConfirm, GetTransactionReceipt, bind, get.
  rewrite H. reflexivity.
Qed.

Lemma CheckTransactionAndConfirm_receipt env ctx t w rc :
  TransactionReceipt env (clock w) (types.Hash t) = Some rc ->
  io_error (txDAL w) = None ->
  snd (CheckTransactionAndConfirm env ctx t w) = Ok tt.
Proof.
  intros H Hio. unfold CheckTransactionAndConfirm, GetTransactionReceipt, bind, get.
  rewrite H. unfold ret. unfold UpdateTransactionStatus at 1, dal.UpdateTransactionStatus,
    gorm_Updates_by_hash. rewrite Hio. reflexivity.
Qed.

Lemma CheckTransactionAndConfirm_store_error env ctx t w rc m :
  TransactionReceipt env (clock w) (types.Hash t) = Some rc ->
  io_error (txDAL w) = Some m ->
  CheckTransactionAndConfirm env ctx t w = (w, Err (ErrMsg m)).
Proof.
  intros H Hio. unfold CheckTransactionAndConfirm, GetTransactionReceipt, bind, get.
  rewrite H. unfold ret. unfold UpdateTransactionStatus at 1, dal.UpdateTransactionStatus,
    gorm_Updates_by_hash. rewrite Hio. destruct w; reflexivity.
Qed.

(** C6 (counterexample): a stored record for id 7, a broadcast refused
    with "nonce too low" and no receipt for the hash: [ProcessEntry]
    fails. *)
Lemma C6_nonce_too_low_without_receipt_fails :
  snd (ProcessEntry (sample_env (Some "nonce too low") None 5) Background (sample_entry 100)
         (sample_wallet {[7 := sample_record models.Generated (sample_entry 100)]} 5)) =
  Err (ErrWrapW "failed to check and confirm transaction: receipt %w and nonce too low"
         (ErrMsg "not found")).
Proof. reflexivity. Qed.

(** C6 (amended): once the signed transaction [t] is obtained and its
    broadcast fails with message [msg], [ProcessEntry] continues, from the
    wallet that recorded the broadcast, with: the direct receipt check
    [CheckTransactionAndConfirm] (its error wrapped) if [msg] contains
    "nonce too low"; otherwise receipt monitoring if [msg] contains
    "already known"; otherwise the error "failed to send transaction".
    The direct check fails when no receipt is found; when one is found it
    succeeds if the store update succeeds, and fails with the store's
    error, changing nothing, if it does not. *)
Theorem C6_broadcast_error_classification :
  (forall env ctx e w w1 t msg,
     obtain_signed_tx env ctx e w = (w1, Ok t) ->
     SendTransaction env (clock w1) (types.Hash t) = Some msg ->
     let w2 := add_event w1 (EvBroadcast (wtypes.ID e) (types.Hash t)) in
     ProcessEntry env ctx e w =
       if strings_Contains msg "nonce too low" then
         wrapW "failed to check and confirm transaction: receipt %w and nonce too low"
           (CheckTransactionAndConfirm env ctx t) w2
       else if strings_Contains msg "already known" then
         MonitorAndConfirmTransaction env ctx t w2
       else (w2, Err (ErrWrapW "failed to send transaction" (ErrMsg msg)))) /\
  (forall env ctx t w,
     TransactionReceipt env (clock w) (types.Hash t) = None ->
     CheckTransactionAndConfirm env ctx t w = (w, Err (ErrMsg "not found"))) /\
  (forall env ctx t w rc,
     TransactionReceipt env (clock w) (types.Hash t) = Some rc ->
     io_error (txDAL w) = None ->
     snd (CheckTransactionAndConfirm env ctx t w) = Ok tt) /\
  (forall env ctx t w rc m,
     TransactionReceipt env (clock w) (types.Hash t) = Some rc ->
     io_error (txDAL w) = Some m ->
     CheckTransactionAndConfirm env ctx t w = (w, Err (ErrMsg m))).
Proof.
  split; [|split; [exact CheckTransactionAndConfirm_no_receipt
                  |split; [exact CheckTransactionAndConfirm_receipt
                          |exact CheckTransactionAndConfirm_store_error]]].
  intros env ctx e w w1 t msg H1 H2 w2.
  unfold ProcessEntry. rewrite bind_unfold, H1. cbv beta.
  rewrite bind_unfold. unfold emit at 1, modify at 1. cbv beta iota. fold w2.
  rewrite bind_unfold.
  assert (HB : BroadcastTransaction env t w2 = (w2, Err (ErrMsg msg))).
  { unfold BroadcastTransaction, bind, get. change (clock w2) with (clock w1).
    rewrite H2. reflexivity. }
  unfold attempt at 1. rewrite HB. cbv beta iota. cbn [error_text].
  destruct (strings_Contains msg "nonce too low"); [reflexivity|].
  destruct (strings_Contains msg "already known"); reflexivity.
Qed.

(** C6, at a stored record whose broadcast is refused with "nonce too
    low" while its receipt is available. *)
Lemma C6_witness :
  snd (ProcessEntry (sample_env (Some "nonce too low") (Some sample_receipt) 5) Background
         (sample_entry 100)
         (sample_wallet {[7 := sample_record models.Generated (sample_entry 100)]} 5)) = Ok tt.
Proof.
  pose proof (proj1 C6_broadcast_error_classification
             (sample_env (Some "nonce too low") (Some sample_receipt) 5) Background
             (sample_entry 100)
             (sample_wallet {[7 := sample_record models.Generated (sample_entry 100)]} 5)
             (sample_wallet {[7 := sample_record models.Generated (sample_entry 100)]} 5)
             sample_tx "nonce too low") as H.
  specialize (H ltac:(vm_compute; reflexivity) eq_refl).
  rewrite H. vm_compute. reflexivity.
Defined.

(** ** C9 *)

(** C9 (counterexample): updating the status of hash 999, which no row
    holds, succeeds and leaves the rows unchanged. *)
Lemma C9_unknown_hash_no_error :
  dal.UpdateTransactionStatus
    (mkDB {[7 := sample_record models.Generated (sample_entry 100)]} None 1)
    200 999 decimal_Zero sample_receipt =
  (mkDB {[7 := sample_record models.Generated (sample_entry 100)]} None 1, None).
Proof. reflexivity. Qed.

(** C9 (amended): [TransactionDAL.UpdateTransactionStatus] fails only
    when the store fails, leaving the rows untouched; with a hash no row
    holds it changes nothing and returns no error; a row holding the hash
    gets the receipt's status, the gas amount, gas_used and
    cumulative_gas_used from the receipt, and confirmed_at = now, every
    other column (id, payer, nonce, to_address, tx_hash, value, gas_limit,
    gas_price, created_at, aggregate_ids, tx, entry) unchanged. *)
Theorem C9_update_status_semantics :
  (forall db now h g rc m, io_error db = Some m ->
     dal.UpdateTransactionStatus db now h g rc = (db, Some (ErrMsg m))) /\
  (forall db now h g rc, io_error db = None ->
     (forall id r, rows db !! id = Some r -> models.TxHash r <> h) ->
     dal.UpdateTransactionStatus db now h g rc = (db, None)) /\
  (forall db now h g rc id r, io_error db = None ->
     rows db !! id = Some r -> models.TxHash r = h ->
     snd (dal.UpdateTransactionStatus db now h g rc) = None /\
     exists r', rows (fst (dal.UpdateTransactionStatus db now h g rc)) !! id = Some r' /\
       models.Status r' = types.Status rc /\ models.Gas r' = g /\
       models.GasUsed r' = decimal_NewFromInt (int64_of_uint64 (types.GasUsed rc)) /\
       models.CumulativeGasUsed r' =
         decimal_NewFromInt (int64_of_uint64 (types.CumulativeGasUsed rc)) /\
       models.ConfirmedAt r' = Some now /\
       models.ID r' = models.ID r /\ models.Payer r' = models.Payer r /\
       models.Nonce r' = models.Nonce r /\ models.ToAddress r' = models.ToAddress r /\
       models.TxHash r' = models.TxHash r /\ models.Value r' = models.Value r /\
       models.GasLimit r' = models.GasLimit r /\ models.GasPrice r' = models.GasPrice r /\
       models.CreatedAt r' = models.CreatedAt r /\
       models.AggregateIds r' = models.AggregateIds r /\
       models.Tx r' = models.Tx r /\ models.Entry r' = models.Entry r).
Proof.
  split; [|split].
  - intros db now h g rc m Hio. unfold dal.UpdateTransactionStatus, gorm_Updates_by_hash.
    rewrite Hio. reflexivity.
  - intros [rs io sq] now h g rc Hio Hn. simpl in *. subst io.
    unfold dal.UpdateTransactionStatus, gorm_Updates_by_hash. simpl. unfold set_rows. simpl.
    do 2 f_equal. rewrite <- (map_fmap_id rs) at 2. apply map_fmap_ext.
    intros i x Hx. destruct (Z.eqb_spec (models.TxHash x) h); [|reflexivity].
    exfalso. exact (Hn i x Hx e).
  - intros db now h g rc id r Hio Hr Hh.
    unfold dal.UpdateTransactionStatus, gorm_Updates_by_hash. rewrite Hio. simpl.
    split; [reflexivity|]. rewrite lookup_fmap, Hr. simpl.
    rewrite Hh, Z.eqb_refl. eexists. split; [reflexivity|]. simpl.
    repeat split; reflexivity.
Qed.

(** C9, at a store holding record 7 (hash 4242): hash 999 changes
    nothing, hash 4242 updates the record. *)
Lemma C9_witness :
  dal.UpdateTransactionStatus
    (mkDB {[7 := sample_record models.Generated (sample_entry 100)]} None 1)
    200 999 decimal_Zero sample_receipt =
  (mkDB {[7 := sample_record models.Generated (sample_entry 100)]} None 1, None) /\
  snd (dal.UpdateTransactionStatus
         (mkDB {[7 := sample_record models.Generated (sample_entry 100)]} None 1)
         200 4242 decimal_Zero sample_receipt) = None.
Proof.
  split.
  - apply (proj1 (proj2 C9_update_status_semantics)); [reflexivity|].
    intros id r H. simpl in H. destruct (decide (id = 7)) as [->|Hne].
    + rewrite lookup_singleton_eq in H. inversion H; subst. simpl. discriminate.
    + rewrite lookup_singleton_ne in H by congruence. discriminate.
  - apply (proj2 (proj2 C9_update_status_semantics) _ _ _ _ _ 7
             (sample_record models.Generated (sample_entry 100))); reflexivity.
Defined.

(** ** C7: one pass of [checkPendingTransactions] *)

Lemma check_each_fold env l w :
  check_each env l w = (fold_left (check_step env) l w, Ok tt).
Proof.
  revert w. induction l as [|q l IH]; intros w; [reflexivity|].
  destruct w as [db mx ns ps c tr]. cbn [check_each fold_left].
  unfold CheckTransactionAndConfirm, GetTransactionReceipt, UpdateTransactionStatus,
    cleanupConfirmedNonces, check_step.
  unfold bind, attempt, get, ret, throw, modify.
  cbn [clock txDAL].
  destruct (TransactionReceipt env c (types.Hash (PTx q))) as [rc|]; cbv beta iota;
    [|apply IH].
  unfold dal.UpdateTransactionStatus, gorm_Updates_by_hash.
  destruct db as [rs [m|] sq]; cbn; apply IH.
Qed.

Lemma check_step_clock env w q : clock (check_step env w q) = clock w.
Proof.
  unfold check_step. destruct (TransactionReceipt _ _ _) as [rc0|]; [destruct (io_error (txDAL w))|]; reflexivity.
Qed.

Lemma check_step_io env w q : io_error (txDAL (check_step env w q)) = io_error (txDAL w).
Proof.
  unfold check_step. destruct (TransactionReceipt _ _ _); [|reflexivity].
  destruct (io_error (txDAL w)) eqn:E; [exact E|].
  simpl. unfold dal.UpdateTransactionStatus, gorm_Updates_by_hash. rewrite E. exact E.
Qed.

Lemma check_step_io_err env w q m :
  io_error (txDAL w) = Some m -> check_step env w q = w.
Proof.
  intros E. unfold check_step. destruct (TransactionReceipt _ _ _); [rewrite E|]; reflexivity.
Qed.

Lemma confirmed_rows_with_hash w0 w tx rc :
  confirmed_in w0 w tx rc -> rows_with_hash w0 w (types.Hash tx).
Proof.
  intros (_ & _ & H) id r Hr Hh. destruct (H id r Hr Hh) as (r' & ? & ? & _). eauto.
Qed.

Lemma check_step_rows_with_hash env w0 w q h :
  rows_with_hash w0 w h -> rows_with_hash w0 (check_step env w q) h.
Proof.
  intros H id r Hr Hh. destruct (H id r Hr Hh) as (r' & Hr' & Hh').
  unfold check_step. destruct (TransactionReceipt _ _ _) as [rc0|]; [destruct (io_error (txDAL w)) eqn:E|];
    eauto.
  simpl. unfold dal.UpdateTransactionStatus, gorm_Updates_by_hash. rewrite E. simpl.
  rewrite lookup_fmap, Hr'. simpl.
  destruct (models.TxHash r' =? types.Hash (PTx q)); eexists; split; eauto.
Qed.

Lemma check_step_confirms env w0 w q rc :
  io_error (txDAL w) = None -> clock w = clock w0 ->
  TransactionReceipt env (clock w) (types.Hash (PTx q)) = Some rc ->
  rows_with_hash w0 w (types.Hash (PTx q)) ->
  confirmed_in w0 (check_step env w q) (PTx q) rc.
Proof.
  intros Hio Hc Hr Hk. unfold check_step. rewrite Hr, Hio.
  split; [apply lookup_delete_eq|]. split; [simpl; set_solver|].
  intros id r H0 Hh. destruct (Hk id r H0 Hh) as (r' & Hr' & Hh').
  simpl. unfold dal.UpdateTransactionStatus, gorm_Updates_by_hash. rewrite Hio. simpl.
  rewrite lookup_fmap, Hr'. simpl. rewrite Hh', Z.eqb_refl.
  eexists; split; [reflexivity|]. simpl. rewrite Hc. repeat split; reflexivity.
Qed.

Lemma check_step_keeps_confirmed env w0 w q tx rc :
  types.Hash (PTx q) <> types.Hash tx ->
  confirmed_in w0 w tx rc -> confirmed_in w0 (check_step env w q) tx rc.
Proof.
  intros Hne (H1 & H2 & H3). unfold check_step.
  destruct (TransactionReceipt _ _ _) as [rc0|]; [destruct (io_error (txDAL w)) eqn:E|];
    try (split; [|split]; assumption).
  split; [simpl; rewrite lookup_delete_ne by congruence; exact H1|].
  split; [simpl; set_solver|].
  intros id r H0 Hh. destruct (H3 id r H0 Hh) as (r' & Hr' & Hh' & Hrest).
  simpl. unfold dal.UpdateTransactionStatus, gorm_Updates_by_hash. rewrite E. simpl.
  rewrite lookup_fmap, Hr'. simpl.
  destruct (Z.eqb_spec (models.TxHash r') (types.Hash (PTx q))); [congruence|].
  eauto.
Qed.

Lemma fold_keeps_confirmed env w0 tx rc l w :
  (forall q, q ∈ l -> types.Hash (PTx q) = types.Hash tx -> PTx q = tx) ->
  TransactionReceipt env (clock w0) (types.Hash tx) = Some rc ->
  io_error (txDAL w) = None -> clock w = clock w0 ->
  confirmed_in w0 w tx rc ->
  confirmed_in w0 (fold_left (check_step env) l w) tx rc.
Proof.
  revert w. induction l as [|q l IH]; intros w Hl Hr Hio Hc Hconf; [exact Hconf|].
  simpl. apply IH.
  - intros q' Hq'. apply Hl. set_solver.
  - exact Hr.
  - rewrite check_step_io. exact Hio.
  - rewrite check_step_clock. exact Hc.
  - destruct (decide (types.Hash (PTx q) = types.Hash tx)) as [He|Hne].
    + assert (Hq : PTx q = tx) by (apply Hl; [set_solver|exact He]).
      rewrite <- Hq. apply check_step_confirms; [exact Hio|exact Hc| |].
      * rewrite Hc, Hq. exact Hr.
      * rewrite Hq. exact (confirmed_rows_with_hash _ _ _ _ Hconf).
    + apply check_step_keeps_confirmed; assumption.
Qed.

Lemma fold_confirms env w0 p rc l w :
  p ∈ l ->
  (forall q, q ∈ l -> types.Hash (PTx q) = types.Hash (PTx p) -> PTx q = PTx p) ->
  TransactionReceipt env (clock w0) (types.Hash (PTx p)) = Some rc ->
  io_error (txDAL w) = None -> clock w = clock w0 ->
  rows_with_hash w0 w (types.Hash (PTx p)) ->
  confirmed_in w0 (fold_left (check_step env) l w) (PTx p) rc.
Proof.
  revert w. induction l as [|q l IH]; intros w Hp Hl Hr Hio Hc Hk;
    [apply elem_of_nil in Hp; contradiction|].
  simpl. apply elem_of_cons in Hp. destruct Hp as [->|Hp].
  - apply fold_keeps_confirmed.
    + intros q' Hq'. apply Hl. set_solver.
    + exact Hr.
    + rewrite check_step_io. exact Hio.
    + rewrite check_step_clock. exact Hc.
    + apply check_step_confirms; [exact Hio|exact Hc| |exact Hk]. rewrite Hc. exact Hr.
  - apply IH; [exact Hp| |exact Hr| |
              |apply check_step_rows_with_hash; exact Hk].
    + intros q' Hq'. apply Hl. set_solver.
    + rewrite check_step_io. exact Hio.
    + rewrite check_step_clock. exact Hc.
Qed.

Lemma fold_io_err env l w m :
  io_error (txDAL w) = Some m -> fold_left (check_step env) l w = w.
Proof.
  revert w. induction l as [|q l IH]; intros w E; [reflexivity|].
  simpl. rewrite (check_step_io_err env w q m E). apply IH. exact E.
Qed.

(** ** C7 *)

Lemma gasUsedAmount_exact tx rc :
  0 <= types.GasUsed rc < 2 ^ 63 ->
  gasUsedAmount tx rc = mkDecimal (types.GasUsed rc * types.GasPrice tx) 0.
Proof.
  intros H. unfold gasUsedAmount, decimal_Mul, decimal_NewFromInt, decimal_NewFromBigInt,
    int64_of_uint64. simpl. destruct (Z.ltb_spec (types.GasUsed rc) (2 ^ 63)); [reflexivity|lia].
Qed.

(** C7 (failing input): a reverted receipt (status 0) writes status 0
    into the record, the value [models.Transaction] documents as pending
    ([Generated]), not Confirmed (nor the documented 2 for failed), while
    the submission leaves the pending set; and with the store failing, a
    found receipt leaves the submission pending and its nonce allocated,
    the record not updated. *)
Lemma C7_receipt_found_not_always_confirmed :
  fst (checkPendingTransactions (sample_env None (Some sample_receipt) 5)
         (sample_pending_wallet (Some "connection refused"))) =
    sample_pending_wallet (Some "connection refused") /\
  models.Status <$> rows (txDAL (fst (checkPendingTransactions
                          (sample_env None (Some reverted_receipt) 5)
                          (sample_pending_wallet None)))) !! 7 = Some models.Generated /\
  pendingTxs (fst (checkPendingTransactions (sample_env None (Some reverted_receipt) 5)
                     (sample_pending_wallet None))) !! types.Hash sample_tx = None.
Proof. split; [|split]; reflexivity. Qed.

(** C7: in one pass of [checkPendingTransactions], over a pending set
    keyed by transaction hash (as [ProcessEntryAsync] keys it), a
    submission whose receipt is found while the store is reachable leaves
    the pending set, its nonce leaves [pendingNonces], and every record
    holding its hash gets the gas amount [NewFromInt(int64(gasUsed)) *
    gasPrice], gas_used and cumulative_gas_used from the receipt,
    confirmed_at = now, and the receipt's status as its own: Confirmed (1)
    for a successful transaction, but 0, the pending [Generated], for a
    reverted one.  The gas amount is exactly [gasUsed * gasPrice] for
    [gasUsed < 2^63].  When the store fails, the pass changes nothing. *)
Theorem C7_monitor_tick_confirms :
  (forall env w p rc,
     io_error (txDAL w) = None ->
     (forall k q, pendingTxs w !! k = Some q -> types.Hash (PTx q) = k) ->
     pendingTxs w !! types.Hash (PTx p) = Some p ->
     TransactionReceipt env (clock w) (types.Hash (PTx p)) = Some rc ->
     let w' := fst (checkPendingTransactions env w) in
     pendingTxs w' !! types.Hash (PTx p) = None /\
     (types.Nonce (PTx p) ∉ pendingNonces w') /\
     forall id r, rows (txDAL w) !! id = Some r -> models.TxHash r = types.Hash (PTx p) ->
       exists r', rows (txDAL w') !! id = Some r' /\
         models.Gas r' = gasUsedAmount (PTx p) rc /\
         models.Status r' = types.Status rc /\ models.ConfirmedAt r' = Some (clock w) /\
         models.GasUsed r' = decimal_NewFromInt (int64_of_uint64 (types.GasUsed rc)) /\
         models.CumulativeGasUsed r' =
           decimal_NewFromInt (int64_of_uint64 (types.CumulativeGasUsed rc))) /\
  (forall tx rc, 0 <= types.GasUsed rc < 2 ^ 63 ->
     gasUsedAmount tx rc = mkDecimal (types.GasUsed rc * types.GasPrice tx) 0) /\
  (forall env w m, io_error (txDAL w) = Some m ->
     checkPendingTransactions env w = (w, Ok tt)).
Proof.
  split; [|split; [exact gasUsedAmount_exact|]].
  - intros env w p rc Hio Hkey Hp Hr w'.
    assert (Hc : confirmed_in w w' (PTx p) rc).
    { unfold w', checkPendingTransactions. rewrite bind_unfold. unfold get at 1.
      cbv beta iota. rewrite check_each_fold. simpl fst.
      apply fold_confirms; [| |exact Hr|exact Hio|reflexivity|].
      - apply list_elem_of_In, in_map_iff. exists (types.Hash (PTx p), p).
        split; [reflexivity|]. apply list_elem_of_In, elem_of_map_to_list. exact Hp.
      - intros q Hq Hh. apply list_elem_of_In, in_map_iff in Hq.
        destruct Hq as ([k q'] & Heq & Hkq). simpl in Heq. subst q.
        apply list_elem_of_In, elem_of_map_to_list in Hkq. simpl in *.
        rewrite (Hkey k q' Hkq) in Hh. subst k. rewrite Hp in Hkq. inversion Hkq. reflexivity.
      - intros id r H0 Hh. eauto. }
    destruct Hc as (H1 & H2 & H3). split; [exact H1|]. split; [exact H2|].
    intros id r H0 Hh. destruct (H3 id r H0 Hh) as (r' & ? & _ & ? & ? & ? & ? & ?).
    exists r'. repeat split; assumption.
  - intros env w m E. unfold checkPendingTransactions. rewrite bind_unfold. unfold get at 1.
    cbv beta iota. rewrite check_each_fold. rewrite (fold_io_err env _ w m E). reflexivity.
Qed.

(** C7, at the pending transaction of record 7 with its receipt found. *)
Lemma C7_witness :
  let w' := fst (checkPendingTransactions (sample_env None (Some sample_receipt) 5)
                   (sample_pending_wallet None)) in
  pendingTxs w' !! types.Hash sample_tx = None /\
  (types.Nonce sample_tx ∉ pendingNonces w') /\
  forall id r, rows (txDAL (sample_pending_wallet None)) !! id = Some r ->
    models.TxHash r = types.Hash sample_tx ->
    exists r', rows (txDAL w') !! id = Some r' /\
      models.Gas r' = gasUsedAmount sample_tx sample_receipt /\
      models.Status r' = types.Status sample_receipt /\ models.ConfirmedAt r' = Some 100 /\
      models.GasUsed r' = decimal_NewFromInt 21000 /\
      models.CumulativeGasUsed r' = decimal_NewFromInt 21000.
Proof.
  apply (proj1 C7_monitor_tick_confirms (sample_env None (Some sample_receipt) 5)
           (sample_pending_wallet None) (mkPendingTx sample_tx (sample_entry 100))
           sample_receipt);
    [reflexivity| |reflexivity|reflexivity].
  intros k q H. unfold sample_pending_wallet in H. simpl in H.
  destruct (decide (k = 4242)) as [->|Hne].
  - rewrite lookup_singleton_eq in H. inversion H. reflexivity.
  - rewrite lookup_singleton_ne in H by congruence. discriminate.
Defined.

(** ** C8 *)

Lemma submit_entries_ok env ctx entries i f p w :
  exists w1 c, submit_entries env ctx entries i f p w = (w1, Ok c).
Proof.
  revert i f p w. induction entries as [|e rest IH]; intros i f p w; [eexists _, _; reflexivity|].
  cbn [submit_entries]. destruct (negb (IsValidQuaiAddress env (wtypes.ToAddress e))); [apply IH|].
  rewrite bind_unfold. unfold attempt at 1. destruct (ProcessEntryAsync env ctx e w) as [w' [u|err]].
  - apply IH.
  - destruct (errors_Is err ErrAlreadyProcessed); apply IH.
Qed.

Lemma checkPendingTransactions_ok env w :
  exists w', checkPendingTransactions env w = (w', Ok tt).
Proof.
  unfold checkPendingTransactions. rewrite bind_unfold. unfold get at 1. cbv beta iota.
  rewrite check_each_fold. eexists. reflexivity.
Qed.

Lemma monitor_loop_count env k w :
  exists w' n e, monitor_loop env k w = (w', Ok (n, e)) /\
    n = Z.of_nat (size (pendingTxs w')).
Proof.
  revert w. induction k as [|k IH]; intros w; cbn [monitor_loop];
    rewrite bind_unfold; unfold get at 1; cbv beta iota.
  - destruct (Z.eqb_spec (Z.of_nat (size (pendingTxs w))) 0) as [E|E];
      do 3 eexists; (split; [reflexivity|]); [symmetry; exact E|reflexivity].
  - destruct (Z.eqb_spec (Z.of_nat (size (pendingTxs w))) 0) as [E|E].
    + do 3 eexists; split; [reflexivity|symmetry; exact E].
    + rewrite bind_unfold. unfold modify at 1. cbv beta iota. rewrite bind_unfold.
      destruct (checkPendingTransactions_ok env
                  (set_clock w (clock w + ReceiptWaitTime))) as [w'' H].
      rewrite H. apply IH.
Qed.

Lemma MonitorAllTransactions_count env d w :
  exists w' n e, MonitorAllTransactions env d w = (w', Ok (n, e)) /\
    n = Z.of_nat (size (pendingTxs w')).
Proof.
  unfold MonitorAllTransactions. rewrite bind_unfold.
  destruct (checkPendingTransactions_ok env w) as [w1 H]. rewrite H.
  rewrite bind_unfold. unfold get at 1. cbv beta iota. apply monitor_loop_count.
Qed.

Lemma fold_no_receipt env l w :
  (forall h, TransactionReceipt env (clock w) h = None) ->
  fold_left (check_step env) l w = w.
Proof.
  intros H. revert w H. induction l as [|q l IH]; intros w H; [reflexivity|].
  simpl. unfold check_step at 2. rewrite H. apply IH. exact H.
Qed.

(** C8: every batch run returns a report with [total] the number of
    entries, [failedCnt], [processedCnt] and [invalidCnt] counted by the
    submission loop, [unprocessedCount] the size of the pending set when
    monitoring stops, and
    [successCnt = total - invalidCnt - failedCnt - processedCnt - unprocessedCount].
    Monitoring under an already expired deadline, with no receipt
    available, reports every pending transaction as unprocessed and
    changes nothing; a batch of three entries whose stored signed
    transactions are broadcast and get no receipt reports 3 unprocessed
    and 0 failed. *)
Theorem C8_batch_counts :
  (forall env ctx entries w,
     exists w' rep, ProcessBatchEntry env ctx entries w = (w', Ok rep) /\
       total rep = Z.of_nat (length entries) /\
       successCnt rep = total rep - invalidCnt rep - failedCnt rep - processedCnt rep
                        - unprocessedCount rep /\
       unprocessedCount rep = Z.of_nat (size (pendingTxs w')) /\
       exists w1, submit_entries env ctx entries 0 0 0 w =
                    (w1, Ok (invalidCnt rep, failedCnt rep, processedCnt rep))) /\
  (forall env deadline w,
     deadline <= clock w ->
     (forall h, TransactionReceipt env (clock w) h = None) ->
     MonitorAllTransactions env deadline w =
       (w, Ok (Z.of_nat (size (pendingTxs w)),
               if Z.eqb (Z.of_nat (size (pendingTxs w))) 0 then None
               else Some ErrDeadlineExceeded))) /\
  snd (ProcessBatchEntry (sample_env None None 5) Background
         [batch_entry 7; batch_entry 8; batch_entry 9] batch_wallet) =
    Ok (mkBatchReport 3 0 0 0 3 0).
Proof.
  split; [|split].
  - intros env ctx entries w. unfold ProcessBatchEntry. rewrite bind_unfold.
    destruct (submit_entries_ok env ctx entries 0 0 0 w) as (w1 & [[i f] p] & Hs).
    rewrite Hs. cbv beta iota. rewrite bind_unfold. unfold get at 1. cbv beta iota.
    rewrite bind_unfold.
    destruct (MonitorAllTransactions_count env (clock w1 + BatchMonitorTimeout) w1)
      as (w2 & n & e & Hm & Hn).
    rewrite Hm. unfold ret. eexists _, _. split; [reflexivity|]. simpl.
    split; [reflexivity|]. split; [reflexivity|]. split; [exact Hn|]. eauto.
  - intros env deadline w Hd Hr. unfold MonitorAllTransactions, checkPendingTransactions.
    rewrite bind_unfold, bind_unfold. unfold get at 1. cbv beta iota.
    rewrite check_each_fold, fold_no_receipt by exact Hr.
    rewrite bind_unfold. unfold get at 1. cbv beta iota.
    unfold ticks_before. destruct (Z.ltb_spec (clock w) deadline); [lia|].
    cbn [monitor_loop]. rewrite bind_unfold. unfold get at 1. cbv beta iota.
    destruct (Z.eqb_spec (Z.of_nat (size (pendingTxs w))) 0) as [E|E];
      [rewrite E|]; reflexivity.
  - vm_compute. reflexivity.
Qed.

(** C8, at three pending transactions and a deadline already past. *)
Lemma C8_witness :
  MonitorAllTransactions (sample_env None None 5) 0 batch_pending_wallet =
    (batch_pending_wallet, Ok (3, Some ErrDeadlineExceeded)).
Proof.
  rewrite (proj1 (proj2 C8_batch_counts) (sample_env None None 5) 0 batch_pending_wallet).
  - vm_compute. reflexivity.
  - vm_compute. discriminate.
  - intros h. reflexivity.
Defined.

(* ================================================================== *)
(** * Further properties of the code *)

(** ** Helpers *)

Lemma GetNonce_reserves env ctx w w1 r p :
  PendingNonceAt env (clock w) = Ok p ->
  GetNonce env ctx w = (w1, r) ->
  let n := if p <=? maxLocalNonce w then u64_add (maxLocalNonce w) 1 else p in
  maxLocalNonce w1 = n /\ pendingNonces w1 = {[n]} ∪ pendingNonces w /\
  txDAL w1 = txDAL w /\ pendingTxs w1 = pendingTxs w /\ trace w1 = trace w /\
  (r = Ok n \/ r = Err ErrDeadlineExceeded).
Proof.
  intros Hp. unfold GetNonce, bind, get, modify, ret, throw. rewrite Hp. unfold sleep.
  destruct ctx as [|dl]; [|destruct (dl <=? _)]; intros H; inversion H; subst; simpl;
    repeat split; auto.
Qed.

Lemma WaitForReceipt_loop_now env ctx h n w rc :
  TransactionReceipt env (clock w) h = Some rc ->
  WaitForReceipt_loop env ctx h (S n) w = (w, Ok rc).
Proof.
  intros H. cbn [WaitForReceipt_loop]. rewrite bind_unfold.
  unfold attempt, GetTransactionReceipt, bind, get. rewrite H. reflexivity.
Qed.

Lemma WaitForReceipt_loop_S env ctx h n :
  WaitForReceipt_loop env ctx h (S n) =
    (let* r := attempt (GetTransactionReceipt env h) in
     match r with
     | Ok receipt => ret receipt
     | Err _ =>
         match n with
         | O => throw (ErrMsg "timeout waiting for transaction receipt after 30 attempts")
         | S _ => let* _ := sleep ctx ReceiptRetryWait in WaitForReceipt_loop env ctx h n
         end
     end).
Proof. reflexivity. Qed.

Lemma WaitForReceipt_loop_miss env ctx h n w :
  TransactionReceipt env (clock w) h = None ->
  WaitForReceipt_loop env ctx h (S n) w =
    match n with
    | O => (w, Err (ErrMsg "timeout waiting for transaction receipt after 30 attempts"))
    | S _ => (let* _ := sleep ctx ReceiptRetryWait in WaitForReceipt_loop env ctx h n) w
    end.
Proof.
  intros H. rewrite WaitForReceipt_loop_S, bind_unfold. unfold attempt at 1.
  unfold GetTransactionReceipt at 1. rewrite bind_unfold. unfold get at 1. rewrite H.
  destruct n; reflexivity.
Qed.

Lemma WaitForReceipt_loop_none_bg env h n w :
  (forall t, TransactionReceipt env t h = None) ->
  WaitForReceipt_loop env Background h (S n) w =
    (set_clock w (clock w + ReceiptRetryWait * Z.of_nat n),
     Err (ErrMsg "timeout waiting for transaction receipt after 30 attempts")).
Proof.
  intros H. revert w. induction n as [|n IH]; intros w;
    rewrite WaitForReceipt_loop_miss by apply H.
  - rewrite Z.mul_0_r, Z.add_0_r. destruct w; reflexivity.
  - rewrite bind_unfold. unfold sleep at 1. cbv beta iota.
    rewrite IH. destruct w; unfold set_clock; simpl. f_equal. f_equal.
    unfold ReceiptRetryWait. lia.
Qed.

Lemma WaitForReceipt_loop_none_dl env h n d w :
  (forall t, TransactionReceipt env t h = None) ->
  snd (WaitForReceipt_loop env (WithDeadline d) h (S n) w) =
    Err (if (0 <? Z.of_nat n) && (d <=? clock w + ReceiptRetryWait * Z.of_nat n)
         then ErrDeadlineExceeded
         else ErrMsg "timeout waiting for transaction receipt after 30 attempts").
Proof.
  intros H. revert w. induction n as [|n IH]; intros w;
    rewrite WaitForReceipt_loop_miss by apply H; [reflexivity|].
  rewrite bind_unfold. unfold sleep at 1.
  destruct (Z.leb_spec d (clock w + ReceiptRetryWait)) as [Hd|Hd].
  - replace ((0 <? Z.of_nat (S n)) && (d <=? clock w + ReceiptRetryWait * Z.of_nat (S n)))
      with true; [reflexivity|].
    symmetry. apply andb_true_intro. split; [apply Z.ltb_lt; lia|].
    apply Z.leb_le. unfold ReceiptRetryWait in *. lia.
  - cbv beta iota. rewrite IH. simpl clock.
    f_equal. destruct n as [|n].
    + rewrite (proj2 (Z.leb_gt d (clock w + ReceiptRetryWait * Z.of_nat 1)))
        by (change (Z.of_nat 1) with 1; lia).
      rewrite andb_false_r. reflexivity.
    + replace (clock w + ReceiptRetryWait + ReceiptRetryWait * Z.of_nat (S n))
        with (clock w + ReceiptRetryWait * Z.of_nat (S (S n))) by lia.
      replace (0 <? Z.of_nat (S n)) with true by (symmetry; apply Z.ltb_lt; lia).
      replace (0 <? Z.of_nat (S (S n))) with true by (symmetry; apply Z.ltb_lt; lia).
      reflexivity.
Qed.

(** ** [TransactionDAL.IsTransactionExist] *)

(** X1: [IsTransactionExist] answers [(true, nil)] exactly for a stored
    id; a missing id comes back as [(false, ErrRecordNotFound)], never
    as [(false, nil)], while [GetTransactionByID] answers the same
    missing id with a zero-valued record and no error. *)
Theorem IsTransactionExist_missing_is_error db id :
  dal_IsTransactionExist db id <> (false, None) /\
  (io_error db = None ->
     (dal_IsTransactionExist db id = (true, None) <-> is_Some (rows db !! id)) /\
     (rows db !! id = None ->
        dal_IsTransactionExist db id = (false, Some ErrRecordNotFound) /\
        dal.GetTransactionByID db id = Ok (Some models.zero))).
Proof.
  unfold dal_IsTransactionExist, gorm_First_by_id, dal.GetTransactionByID, gorm_Scan_by_id.
  destruct (io_error db) as [m|]; [split; [discriminate|intros H; discriminate]|].
  destruct (rows db !! id) as [r|]; simpl.
  - split; [discriminate|]. intros _.
    split; [split; [intros _; eauto|intros _; reflexivity]|intros H; discriminate].
  - split; [discriminate|]. intros _.
    split; [split; [intros H; discriminate|intros [? H]; discriminate]|intros _; auto].
Qed.

Lemma IsTransactionExist_witness :
  dal_IsTransactionExist (mkDB {[7 := sample_record models.Generated (sample_entry 100)]} None 1) 8
    = (false, Some ErrRecordNotFound).
Proof.
  pose proof (proj2 (proj2 (IsTransactionExist_missing_is_error
    (mkDB {[7 := sample_record models.Generated (sample_entry 100)]} None 1) 8) eq_refl)) as H.
  specialize (H ltac:(vm_compute; reflexivity)).
  exact (proj1 H).
Defined.

(** ** [Wallet.GetNonce] under a deadline *)

(** X2: when the context's deadline falls within the 5 s wait,
    [GetNonce] fails with [DeadlineExceeded] but has already raised
    [maxLocalNonce] to the chosen nonce and added it to
    [pendingNonces]; [CreateTransaction] then fails with the wrapped
    error, leaving the nonce reserved and the store untouched. *)
Theorem GetNonce_deadline_reserves_nonce env d w p :
  PendingNonceAt env (clock w) = Ok p ->
  d <= clock w + NonceWaitTime ->
  let n := if p <=? maxLocalNonce w then u64_add (maxLocalNonce w) 1 else p in
  GetNonce env (WithDeadline d) w =
    (set_clock (set_nonces w n ({[n]} ∪ pendingNonces w)) (Z.max (clock w) d),
     Err ErrDeadlineExceeded) /\
  forall e,
    CreateTransaction env (WithDeadline d) e w =
      (set_clock (set_nonces w n ({[n]} ∪ pendingNonces w)) (Z.max (clock w) d),
       Err (ErrWrapV "failed to get nonce" ErrDeadlineExceeded)).
Proof.
  intros Hp Hd n.
  assert (G : GetNonce env (WithDeadline d) w =
    (set_clock (set_nonces w n ({[n]} ∪ pendingNonces w)) (Z.max (clock w) d),
     Err ErrDeadlineExceeded)).
  { unfold GetNonce, bind, get, modify, ret, throw. rewrite Hp. unfold sleep. simpl.
    destruct (Z.leb_spec d (clock w + NonceWaitTime)); [reflexivity|lia]. }
  split; [exact G|]. intros e. unfold CreateTransaction. rewrite bind_unfold.
  unfold wrapV at 1. rewrite G. reflexivity.
Qed.

Lemma GetNonce_deadline_witness :
  GetNonce (sample_env None None 5) (WithDeadline 103) (sample_wallet ∅ 9) =
    (set_clock (set_nonces (sample_wallet ∅ 9) 10 {[10]}) 103, Err ErrDeadlineExceeded).
Proof.
  pose proof (proj1 (GetNonce_deadline_reserves_nonce (sample_env None None 5) 103
                       (sample_wallet ∅ 9) 5 eq_refl ltac:(vm_compute; discriminate))) as H.
  rewrite H. vm_compute. reflexivity.
Defined.

(** ** [Wallet.WaitForReceipt] *)

(** X3: [WaitForReceipt] with no receipt ever available: under
    [context.Background()] it gives up with the timeout error after 30
    attempts, 29 waits of 10 s, i.e. 290 s after it started, changing
    nothing else; under a deadline [d] it returns [DeadlineExceeded]
    exactly when [d] comes no later than those 290 s, and the timeout
    error otherwise. *)
Theorem WaitForReceipt_gives_up env h w :
  (forall t, TransactionReceipt env t h = None) ->
  WaitForReceipt env Background h w =
    (set_clock w (clock w + 290),
     Err (ErrMsg "timeout waiting for transaction receipt after 30 attempts")) /\
  forall d,
    snd (WaitForReceipt env (WithDeadline d) h w) =
      Err (if d <=? clock w + 290 then ErrDeadlineExceeded
           else ErrMsg "timeout waiting for transaction receipt after 30 attempts").
Proof.
  intros H. split.
  - unfold WaitForReceipt, ReceiptMaxRetries. rewrite WaitForReceipt_loop_none_bg by exact H.
    reflexivity.
  - intros d. unfold WaitForReceipt, ReceiptMaxRetries.
    rewrite WaitForReceipt_loop_none_dl by exact H. reflexivity.
Qed.

Lemma WaitForReceipt_gives_up_witness :
  snd (WaitForReceipt (sample_env None None 5) (WithDeadline 390) 4242 (sample_wallet ∅ 5)) =
    Err ErrDeadlineExceeded.
Proof.
  rewrite (proj2 (WaitForReceipt_gives_up (sample_env None None 5) 4242 (sample_wallet ∅ 5)
                    (fun t => eq_refl)) 390).
  reflexivity.
Defined.

(** ** [Wallet.MonitorAndConfirmTransaction] *)

(** X4: when the receipt is already available and the store is up,
    [MonitorAndConfirmTransaction] returns at once (no waiting): every
    row holding the transaction's hash gets the receipt's status, the
    gas amount and [confirmed_at] now, other rows are untouched, the
    nonce leaves [pendingNonces], and [pendingTxs] is left as it was. *)
Theorem MonitorAndConfirmTransaction_receipt_now env ctx tx w rc :
  TransactionReceipt env (clock w) (types.Hash tx) = Some rc ->
  io_error (txDAL w) = None ->
  exists w', MonitorAndConfirmTransaction env ctx tx w = (w', Ok tt) /\
    clock w' = clock w /\ pendingTxs w' = pendingTxs w /\ trace w' = trace w /\
    maxLocalNonce w' = maxLocalNonce w /\
    pendingNonces w' = pendingNonces w ∖ {[types.Nonce tx]} /\
    io_error (txDAL w') = None /\
    forall id, match rows (txDAL w) !! id, rows (txDAL w') !! id with
               | None, None => True
               | Some r, Some r' =>
                   if models.TxHash r =? types.Hash tx
                   then models.Status r' = types.Status rc /\
                        models.Gas r' = gasUsedAmount tx rc /\
                        models.ConfirmedAt r' = Some (clock w) /\
                        models.TxHash r' = models.TxHash r /\ models.Tx r' = models.Tx r /\
                        models.Entry r' = models.Entry r
                   else r' = r
               | _, _ => False
               end.
Proof.
  intros Hr Hio. unfold MonitorAndConfirmTransaction, WaitForReceipt, ReceiptMaxRetries.
  rewrite bind_unfold, (WaitForReceipt_loop_now env ctx _ 29 w rc Hr).
  unfold UpdateTransactionStatus, dal.UpdateTransactionStatus, gorm_Updates_by_hash, bind,
    cleanupConfirmedNonces, modify.
  rewrite Hio. eexists. split; [reflexivity|]. simpl.
  repeat split; auto. intros id. rewrite lookup_fmap.
  destruct (rows (txDAL w) !! id) as [r|]; simpl; [|exact I].
  destruct (models.TxHash r =? types.Hash tx) eqn:E; simpl; [|reflexivity].
  apply Z.eqb_eq in E. repeat split; auto.
Qed.

Lemma MonitorAndConfirmTransaction_witness :
  exists w', MonitorAndConfirmTransaction (sample_env None (Some sample_receipt) 5) Background
    sample_tx (sample_pending_wallet None) = (w', Ok tt).
Proof.
  destruct (MonitorAndConfirmTransaction_receipt_now (sample_env None (Some sample_receipt) 5)
              Background sample_tx (sample_pending_wallet None) sample_receipt eq_refl eq_refl)
    as (w' & H & _). exists w'. exact H.
Defined.

(** ** [Wallet.CreateTransaction] *)

Lemma GetNonce_ok_reserved env ctx w w1 n :
  GetNonce env ctx w = (w1, Ok n) -> n ∈ pendingNonces w1 /\ maxLocalNonce w1 = n.
Proof.
  unfold GetNonce, bind, get, modify, ret, throw.
  destruct (PendingNonceAt env (clock w)) as [p|err]; [|discriminate]. unfold sleep.
  destruct ctx as [|dl]; [|destruct (dl <=? _)]; intros H; inversion H; subst; simpl;
    split; [set_solver|reflexivity|set_solver|reflexivity].
Qed.

(** X5: once [GetNonce], [SuggestGasPrice] and [SignTx] have succeeded
    and the store is up, [CreateTransaction] files its record under the
    entry's id, or, for entry id 0 (a zero [int32], which GORM leaves out
    of the INSERT), under the next value of the id sequence.  When that
    id is free and the hash is new, it inserts there a [Generated] record
    holding the signed transaction, its hash, the nonce and the entry,
    and returns that transaction; when a row with that id exists, it
    fails with the wrapped duplicate key error and leaves the rows as
    they were.  Either way the nonce stays in [pendingNonces]. *)
Theorem CreateTransaction_outcomes env ctx e w w1 n gp h :
  GetNonce env ctx w = (w1, Ok n) ->
  SuggestGasPrice env (clock w1) = Ok gp ->
  SignTx env n gp (wtypes.ToAddress e) (decimal_BigInt (wtypes.Value e)) = Ok h ->
  io_error (txDAL w1) = None ->
  (wtypes.ID e = 0 -> id_seq (txDAL w1) <= serial_max) ->
  let signedTx := types.mkTransaction h n gp GasLimit (wtypes.ToAddress e)
                    (decimal_BigInt (wtypes.Value e)) in
  let rid := if Z.eqb (wtypes.ID e) 0 then id_seq (txDAL w1) else wtypes.ID e in
  (rows (txDAL w1) !! rid = None -> hash_taken (rows (txDAL w1)) h = false ->
     exists w2 r, CreateTransaction env ctx e w = (w2, Ok signedTx) /\
       rows (txDAL w2) = <[rid := r]> (rows (txDAL w1)) /\
       models.ID r = rid /\ models.TxHash r = h /\ models.Nonce r = n /\
       models.Status r = models.Generated /\ models.Tx r = Some signedTx /\
       models.Entry r = Some e /\ (n ∈ pendingNonces w2)) /\
  (is_Some (rows (txDAL w1) !! rid) ->
     exists w2, CreateTransaction env ctx e w =
       (w2, Err (ErrWrapV "failed to create transaction record"
                  (ErrMsg "duplicate key value violates unique constraint transactions_pkey"))) /\
       rows (txDAL w2) = rows (txDAL w1) /\ (n ∈ pendingNonces w2)).
Proof.
  intros HG Hgp Hs Hio Hseq signedTx rid.
  destruct (GetNonce_ok_reserved env ctx w w1 n HG) as [Hn _].
  assert (E : CreateTransaction env ctx e w =
    let '(w2, r) :=
      CreateTransactionRecord
        (models.mkTransaction (wtypes.ID e) (Address env) n (wtypes.ToAddress e) h
           (wtypes.Value e) decimal_Zero (decimal_NewFromInt GasLimit) decimal_Zero
           decimal_Zero (decimal_NewFromBigInt gp 0) models.Generated (clock w1) None
           (wtypes.AggregateIds e) (Some signedTx) (Some e))
        (add_event w1 (EvSign (wtypes.ID e) h)) in
    match r with
    | Ok _ => (w2, Ok signedTx)
    | Err err => (w2, Err (ErrWrapV "failed to create transaction record" err))
    end).
  { unfold CreateTransaction. rewrite bind_unfold. unfold wrapV at 1. rewrite HG.
    rewrite bind_unfold. unfold get at 1. cbv beta iota. rewrite Hgp, Hs.
    rewrite bind_unfold. unfold emit, modify at 1. cbv beta iota.
    rewrite bind_unfold. unfold wrapV at 1.
    destruct (CreateTransactionRecord _ _) as [w2 [[]|err]]; reflexivity. }
  rewrite E. unfold CreateTransactionRecord, dal.CreateTransaction, gorm_Create.
  simpl txDAL. rewrite Hio. cbn [models.Tx models.Entry models.ID models.TxHash].
  unfold rid. destruct (Z.eqb_spec (wtypes.ID e) 0) as [E0|E0].
  - rewrite (proj2 (Z.ltb_ge _ _) (Hseq E0)). simpl andb. cbv beta iota. simpl rows.
    split.
    + intros Hnone Hfree. rewrite Hnone, Hfree. simpl.
      eexists _, _. split; [reflexivity|]. simpl. repeat split; try reflexivity; set_solver.
    + intros [r0 Hr0]. rewrite Hr0. simpl. eexists. split; [reflexivity|].
      split; [reflexivity|]. set_solver.
  - simpl andb. cbv beta iota. split.
    + intros Hnone Hfree. rewrite Hnone, Hfree. simpl.
      eexists _, _. split; [reflexivity|]. simpl. repeat split; try reflexivity; set_solver.
    + intros [r0 Hr0]. rewrite Hr0. simpl. eexists. split; [reflexivity|].
      split; [reflexivity|]. set_solver.
Qed.

Lemma CreateTransaction_outcomes_witness :
  exists w2 r, CreateTransaction (sample_env None None 5) Background (sample_entry 100)
                 (sample_wallet ∅ 5) = (w2, Ok (types.mkTransaction 7 6 1000 GasLimit "0x00b2" 100)) /\
    rows (txDAL w2) = <[7 := r]> ∅ /\ models.ID r = 7 /\ models.TxHash r = 7 /\
    models.Nonce r = 6 /\ models.Status r = models.Generated /\
    models.Tx r = Some (types.mkTransaction 7 6 1000 GasLimit "0x00b2" 100) /\
    models.Entry r = Some (sample_entry 100) /\ (6 ∈ pendingNonces w2).
Proof.
  pose proof (CreateTransaction_outcomes (sample_env None None 5) Background (sample_entry 100)
    (sample_wallet ∅ 5) (fst (GetNonce (sample_env None None 5) Background (sample_wallet ∅ 5)))
    6 1000 7) as H.
  specialize (H ltac:(vm_compute; reflexivity) eq_refl eq_refl eq_refl).
  specialize (H ltac:(vm_compute; discriminate)).
  exact (proj1 H eq_refl eq_refl).
Defined.

(** ** [Wallet.SendQuai] *)

(** X6: [SendQuai] never gets past its record: the record it builds
    leaves [Tx] and [Entry] at the empty string, which the [jsonb]
    columns reject, so once the nonce, the gas price and the signature
    are obtained, it fails with "failed to create transaction record"
    (wrapping that rejection, or the store's own error when it is down),
    with the nonce reserved, nothing written and nothing broadcast: the
    wallet is exactly as [GetNonce] left it. *)
Theorem SendQuai_record_rejected env ctx to amount w w1 n gp h :
  GetNonce env ctx w = (w1, Ok n) ->
  SuggestGasPrice env (clock w1) = Ok gp ->
  SignTx env n gp to amount = Ok h ->
  SendQuai env ctx to amount w =
    (w1, Err (ErrWrapV "failed to create transaction record"
               (ErrMsg (match io_error (txDAL w1) with
                        | Some m => m
                        | None => "invalid input syntax for type json"
                        end)))) /\
  (n ∈ pendingNonces w1).
Proof.
  intros HG Hgp Hs.
  destruct (GetNonce_ok_reserved env ctx w w1 n HG) as [Hn _].
  split; [|exact Hn].
  unfold SendQuai. rewrite bind_unfold. unfold wrapV at 1. rewrite HG.
  rewrite bind_unfold. unfold get at 1. cbv beta iota. rewrite Hgp, Hs.
  rewrite bind_unfold. unfold wrapV at 1, CreateTransactionRecord at 1, dal.CreateTransaction,
    gorm_Create.
  destruct (io_error (txDAL w1)); simpl; destruct w1 as [[]]; reflexivity.
Qed.

Lemma SendQuai_record_rejected_witness :
  SendQuai (sample_env None None 5) Background "0x00b2" 100 (sample_wallet ∅ 5) =
  (fst (GetNonce (sample_env None None 5) Background (sample_wallet ∅ 5)),
   Err (ErrWrapV "failed to create transaction record"
          (ErrMsg "invalid input syntax for type json"))) /\
  (6 ∈ pendingNonces (fst (GetNonce (sample_env None None 5) Background (sample_wallet ∅ 5)))).
Proof.
  pose proof (SendQuai_record_rejected (sample_env None None 5) Background "0x00b2" 100
    (sample_wallet ∅ 5) (fst (GetNonce (sample_env None None 5) Background (sample_wallet ∅ 5)))
    6 1000 7) as H.
  specialize (H ltac:(vm_compute; reflexivity) eq_refl eq_refl).
  exact H.
Defined.

(** ** [Wallet.ProcessEntryAsync] and the pending set *)

(** X7: once [ProcessEntryAsync] has its signed transaction, it puts it
    in [pendingTxs] under its hash and broadcasts it; on success, and on
    a refusal mentioning "nonce too low" or "already known", it returns
    nil with the transaction left pending; on any other refusal it
    returns the wrapped error and removes the hash from [pendingTxs],
    dropping also an earlier pending transaction of that hash. *)
Theorem ProcessEntryAsync_pending_outcome env ctx e w w1 t :
  obtain_signed_tx env ctx e w = (w1, Ok t) ->
  let w' := fst (ProcessEntryAsync env ctx e w) in
  let r := snd (ProcessEntryAsync env ctx e w) in
  match SendTransaction env (clock w1) (types.Hash t) with
  | None => r = Ok tt /\ pendingTxs w' = <[types.Hash t := mkPendingTx t e]> (pendingTxs w1)
  | Some m =>
      if strings_Contains m "nonce too low" || strings_Contains m "already known"
      then r = Ok tt /\ pendingTxs w' = <[types.Hash t := mkPendingTx t e]> (pendingTxs w1)
      else r = Err (ErrWrapW "failed to broadcast transaction" (ErrMsg m)) /\
           pendingTxs w' = delete (types.Hash t) (pendingTxs w1)
  end.
Proof.
  intros H. unfold ProcessEntryAsync. rewrite bind_unfold, H.
  unfold emit, BroadcastTransaction, bind, modify, attempt, get, ret, throw. simpl.
  destruct (SendTransaction env (clock w1) (types.Hash t)) as [m|]; simpl; [|auto].
  destruct (strings_Contains m "nonce too low"); simpl; [auto|].
  destruct (strings_Contains m "already known"); simpl; [auto|].
  split; [reflexivity|]. apply delete_insert_eq.
Qed.

Lemma ProcessEntryAsync_pending_witness :
  snd (ProcessEntryAsync (sample_env (Some "insufficient funds") None 5) Background
         (sample_entry 100)
         (sample_wallet {[7 := sample_record models.Generated (sample_entry 100)]} 5)) =
    Err (ErrWrapW "failed to broadcast transaction" (ErrMsg "insufficient funds")) /\
  pendingTxs (fst (ProcessEntryAsync (sample_env (Some "insufficient funds") None 5) Background
         (sample_entry 100)
         (sample_wallet {[7 := sample_record models.Generated (sample_entry 100)]} 5))) = ∅.
Proof.
  pose proof (ProcessEntryAsync_pending_outcome (sample_env (Some "insufficient funds") None 5)
    Background (sample_entry 100)
    (sample_wallet {[7 := sample_record models.Generated (sample_entry 100)]} 5)
    (sample_wallet {[7 := sample_record models.Generated (sample_entry 100)]} 5) sample_tx)
    as H.
  specialize (H ltac:(vm_compute; reflexivity)). exact H.
Defined.

(** ** The submission loop of [ProcessBatchEntry] *)

(** X8: the submission loop counts exactly the entries with an invalid
    address in [invalidCnt]; the failed and already-processed counts grow
    by at most the number of valid entries; and when no entry has a
    valid address nothing is submitted: the wallet is unchanged. *)
Theorem submit_entries_counts env ctx entries i f p w :
  let invalid := Z.of_nat (length (List.filter
                   (fun e => negb (IsValidQuaiAddress env (wtypes.ToAddress e))) entries)) in
  let valid := Z.of_nat (length (List.filter
                   (fun e => IsValidQuaiAddress env (wtypes.ToAddress e)) entries)) in
  exists w' f' p', submit_entries env ctx entries i f p w = (w', Ok (i + invalid, f', p')) /\
    f <= f' /\ p <= p' /\ (f' - f) + (p' - p) <= valid /\ (valid = 0 -> w' = w).
Proof.
  revert i f p w. induction entries as [|e rest IH]; intros i f p w; simpl.
  - do 3 eexists. split; [rewrite Z.add_0_r; reflexivity|]. repeat split; lia.
  - destruct (IsValidQuaiAddress env (wtypes.ToAddress e)) eqn:Ev; simpl.
    + rewrite bind_unfold. unfold attempt at 1.
      destruct (ProcessEntryAsync env ctx e w) as [w1 [u|err]];
        [|destruct (errors_Is err ErrAlreadyProcessed)].
      * destruct (IH i f p w1) as (w' & f' & p' & E & H1 & H2 & H3 & _).
        exists w', f', p'. rewrite E. repeat split; try lia.
      * destruct (IH i f (p + 1) w1) as (w' & f' & p' & E & H1 & H2 & H3 & _).
        exists w', f', p'. rewrite E. repeat split; try lia.
      * destruct (IH i (f + 1) p w1) as (w' & f' & p' & E & H1 & H2 & H3 & _).
        exists w', f', p'. rewrite E. repeat split; try lia.
    + destruct (IH (i + 1) f p w) as (w' & f' & p' & E & H1 & H2 & H3 & H4).
      exists w', f', p'. rewrite E. repeat split; try lia; auto.
      rewrite Nat2Z.inj_succ. do 4 f_equal. lia.
Qed.

(** ** The transfer loop of [runTransfer] *)

(** X9: in [runTransfer], an entry with an invalid address ends the
    process through [log.Fatalf]: the entries after it are never
    processed, the wallet is as the entries before it left it, and no
    summary is printed. *)
Theorem transfer_loop_stops_at_invalid env ctx pre e post s f p i w :
  IsValidQuaiAddress env (wtypes.ToAddress e) = false ->
  transfer_loop env ctx (pre ++ e :: post) s f p i w =
    (fst (transfer_loop env ctx pre s f p i w), Ok None).
Proof.
  intros He. revert s f p i w. induction pre as [|x pre IH]; intros s f p i w; simpl.
  - rewrite He. reflexivity.
  - destruct (IsValidQuaiAddress env (wtypes.ToAddress x)); simpl; [|reflexivity].
    rewrite !bind_unfold. unfold attempt.
    destruct (ProcessEntry env ctx x w) as [w1 [u|err]];
      [|destruct (errors_Is err ErrAlreadyProcessed)]; apply IH.
Qed.

Lemma transfer_loop_stops_witness :
  transfer_loop strict_env Background ([sample_entry 100] ++ bad_address_entry :: [sample_entry 100])
    0 0 0 0 (sample_wallet ∅ 5) =
  (fst (transfer_loop strict_env Background [sample_entry 100] 0 0 0 0 (sample_wallet ∅ 5)),
   Ok None).
Proof.
  exact (transfer_loop_stops_at_invalid strict_env Background [sample_entry 100] bad_address_entry
    [sample_entry 100] 0 0 0 0 (sample_wallet ∅ 5) eq_refl).
Defined.

(** X10: when every address is valid, [runTransfer]'s loop processes
    every entry and ends normally, each entry adding one to exactly one
    of [successCnt], [failedCnt] and [processedCnt]; [invalidCnt] stays
    as it was. *)
Theorem transfer_loop_counts env ctx entries s f p i w :
  Forall (fun e => IsValidQuaiAddress env (wtypes.ToAddress e) = true) entries ->
  exists w' s' f' p', transfer_loop env ctx entries s f p i w = (w', Ok (Some (s', f', p', i))) /\
    s <= s' /\ f <= f' /\ p <= p' /\
    (s' - s) + (f' - f) + (p' - p) = Z.of_nat (length entries).
Proof.
  intros Hall. revert s f p w. induction Hall as [|x l Hx Hl IH]; intros s f p w; simpl.
  - do 4 eexists. split; [reflexivity|]. lia.
  - rewrite Hx. simpl. rewrite bind_unfold. unfold attempt at 1.
    destruct (ProcessEntry env ctx x w) as [w1 [u|err]];
      [|destruct (errors_Is err ErrAlreadyProcessed)].
    + destruct (IH (s + 1) f p w1) as (w' & s' & f' & p' & E & ?).
      exists w', s', f', p'. rewrite E. split; [reflexivity|]. lia.
    + destruct (IH s f (p + 1) w1) as (w' & s' & f' & p' & E & ?).
      exists w', s', f', p'. rewrite E. split; [reflexivity|]. lia.
    + destruct (IH s (f + 1) p w1) as (w' & s' & f' & p' & E & ?).
      exists w', s', f', p'. rewrite E. split; [reflexivity|]. lia.
Qed.

Lemma transfer_loop_counts_witness :
  exists w' s' f' p',
    transfer_loop (sample_env None None 5) Background [sample_entry 100; sample_entry 100]
      0 0 0 0 (sample_wallet ∅ 5) = (w', Ok (Some (s', f', p', 0))) /\
    0 <= s' /\ 0 <= f' /\ 0 <= p' /\ (s' - 0) + (f' - 0) + (p' - 0) = 2.
Proof.
  exact (transfer_loop_counts (sample_env None None 5) Background
    [sample_entry 100; sample_entry 100] 0 0 0 0 (sample_wallet ∅ 5)
    ltac:(repeat constructor)).
Defined.

(** ** [shopspring/decimal] as numbers *)

Section decimal_numbers.
Local Open Scope Q_scope.

Lemma ten_nonzero : ~ inject_Z 10 == 0.
Proof. unfold Qeq. simpl. discriminate. Qed.

Lemma decimal_rescale_val d e :
  (e <= dec_exp d)%Z -> inject_Z (decimal_rescale d e) * inject_Z 10 ^ e == decimal_val d.
Proof.
  intros H. unfold decimal_rescale, decimal_val.
  rewrite inject_Z_mult, Zpower_Qpower by lia.
  rewrite <- Qmult_assoc, <- Qpower_plus by exact ten_nonzero.
  replace (dec_exp d - e + e)%Z with (dec_exp d) by ring. reflexivity.
Qed.

Lemma decimal_Cmp_val a b : decimal_Cmp a b = (decimal_val a ?= decimal_val b).
Proof.
  unfold decimal_Cmp.
  set (e := Z.min (dec_exp a) (dec_exp b)).
  rewrite <- (decimal_rescale_val a e) by lia.
  rewrite <- (decimal_rescale_val b e) by lia.
  assert (HP : 0 < inject_Z 10 ^ e) by (apply Qpower_0_lt; reflexivity).
  destruct (Z.compare_spec (decimal_rescale a e) (decimal_rescale b e)) as [E|L|G].
  - rewrite E. symmetry. apply Qeq_alt. reflexivity.
  - symmetry. apply Qlt_alt. apply Qmult_lt_r; [exact HP|]. rewrite <- Zlt_Qlt. exact L.
  - symmetry. apply Qgt_alt. unfold Qgt. apply Qmult_lt_r; [exact HP|].
    rewrite <- Zlt_Qlt. lia.
Qed.

Lemma decimal_Add_val a b : decimal_val (decimal_Add a b) == decimal_val a + decimal_val b.
Proof.
  unfold decimal_Add. set (e := Z.min (dec_exp a) (dec_exp b)).
  unfold decimal_val at 1. simpl. rewrite inject_Z_plus, Qmult_plus_distr_l.
  rewrite (decimal_rescale_val a e), (decimal_rescale_val b e) by lia. reflexivity.
Qed.

Lemma decimal_Mul_val a b : decimal_val (decimal_Mul a b) == decimal_val a * decimal_val b.
Proof.
  unfold decimal_Mul, decimal_val. simpl.
  rewrite inject_Z_mult, Qpower_plus by exact ten_nonzero. ring.
Qed.

Lemma decimal_int_val v : decimal_val (mkDecimal v 0) == inject_Z v.
Proof. unfold decimal_val. simpl. apply Qmult_1_r. Qed.

Lemma decimal_LessThan_val a b :
  decimal_LessThan a b = true <-> decimal_val a < decimal_val b.
Proof.
  unfold decimal_LessThan. rewrite decimal_Cmp_val, Qlt_alt.
  destruct (decimal_val a ?= decimal_val b); split; congruence.
Qed.

Lemma decimal_Equal_val a b :
  decimal_Equal a b = true <-> decimal_val a == decimal_val b.
Proof.
  unfold decimal_Equal. rewrite decimal_Cmp_val, Qeq_alt.
  destruct (decimal_val a ?= decimal_val b); split; congruence.
Qed.

Lemma fold_Add_val l acc :
  decimal_val (fold_left (fun acc entry => decimal_Add acc (wtypes.Value entry)) l acc) ==
  decimal_val acc + entries_total_val l.
Proof.
  revert acc. induction l as [|x l IH]; intros acc; simpl.
  - ring.
  - rewrite IH, decimal_Add_val. ring.
Qed.

End decimal_numbers.

Lemma int64_mul_small x y : 0 <= x * y < 2 ^ 63 -> int64_mul x y = x * y.
Proof.
  intros H. unfold int64_mul, int64_of_uint64, two64.
  rewrite Z.mod_small by lia. destruct (Z.ltb_spec (x * y) (2 ^ 63)); lia.
Qed.

Lemma CheckBalance_state env gb entries w : fst (CheckBalance env gb entries w) = w.
Proof.
  unfold CheckBalance, bind, get, ret, throw.
  destruct (gb (clock w)); [|reflexivity].
  destruct (SuggestGasPrice env (clock w)); [|reflexivity].
  destruct (decimal_LessThan _ _); reflexivity.
Qed.

(** ** [wallet.CheckBalance] *)

(** X11: [CheckBalance] only reads: the wallet is never changed.  With
    the balance and the gas price known, and the entry count small
    enough that [GasLimit * len] does not overflow int64, it succeeds
    exactly when the balance covers the sum of the entries' values plus
    [10 * gasPrice * GasLimit] per entry, and otherwise fails with the
    insufficient-balance error. *)
Theorem CheckBalance_requirement env GetBalance entries w balance gasPrice :
  GetBalance (clock w) = Ok balance ->
  SuggestGasPrice env (clock w) = Ok gasPrice ->
  GasLimit * Z.of_nat (length entries) < 2 ^ 63 ->
  CheckBalance env GetBalance entries w =
    (w, if Qle_bool (entries_total_val entries +
                     inject_Z (10 * gasPrice * GasLimit * Z.of_nat (length entries)))
                    (inject_Z balance)
        then Ok tt else Err (ErrMsg "insufficient balance for transfers")).
Proof.
  intros HB Hg Hn. unfold CheckBalance, bind, get. rewrite HB, Hg.
  rewrite int64_mul_small by (unfold GasLimit in *; lia).
  set (req := (entries_total_val entries +
               inject_Z (10 * gasPrice * GasLimit * Z.of_nat (length entries)))%Q).
  assert (Hreq : (decimal_val
     (decimal_Add
        (fold_left (fun acc entry => decimal_Add acc (wtypes.Value entry)) entries decimal_Zero)
        (decimal_Mul (decimal_Mul (decimal_NewFromBigInt gasPrice 0) (decimal_NewFromInt 10))
           (decimal_NewFromInt (GasLimit * Z.of_nat (length entries))))) == req)%Q).
  { rewrite decimal_Add_val, fold_Add_val, !decimal_Mul_val.
    unfold decimal_NewFromBigInt, decimal_NewFromInt. rewrite !decimal_int_val.
    unfold req. rewrite !inject_Z_mult.
    unfold decimal_val, decimal_Zero. simpl. ring. }
  destruct (decimal_LessThan _ _) eqn:E.
  - apply decimal_LessThan_val in E. unfold decimal_NewFromBigInt in E.
    rewrite decimal_int_val, Hreq in E.
    destruct (Qle_bool req (inject_Z balance)) eqn:F; [|reflexivity].
    apply Qle_bool_iff in F. exfalso. apply (Qlt_not_le _ _ E F).
  - assert (E' : ~ (inject_Z balance < req)%Q).
    { intros L. rewrite <- Hreq, <- (decimal_int_val balance) in L.
      apply decimal_LessThan_val in L. unfold decimal_NewFromBigInt in E, L. congruence. }
    destruct (Qle_bool req (inject_Z balance)) eqn:F; [reflexivity|].
    exfalso. apply E'. apply Qnot_le_lt. intros L. apply Qle_bool_iff in L. congruence.
Qed.

Lemma CheckBalance_requirement_witness :
  CheckBalance (sample_env None None 5) (fun _ => Ok 840000099) [sample_entry 100]
    (sample_wallet ∅ 5) =
  (sample_wallet ∅ 5, Err (ErrMsg "insufficient balance for transfers")).
Proof.
  rewrite (CheckBalance_requirement (sample_env None None 5) (fun _ => Ok 840000099)
             [sample_entry 100] (sample_wallet ∅ 5) 840000099 1000 eq_refl eq_refl
             ltac:(vm_compute; reflexivity)).
  vm_compute. reflexivity.
Defined.

(** X12: [runTransfer] checks the balance before any transfer: when
    [CheckBalance] fails, for whatever reason, it returns that error
    wrapped as "insufficient balance" with the wallet and the store
    untouched, and no entry is processed. *)
Theorem runTransfer_balance_gate env GetBalance entries w err :
  snd (CheckBalance env GetBalance entries w) = Err err ->
  runTransfer_entries env GetBalance entries w = (w, Err (ErrWrapW "insufficient balance" err)).
Proof.
  intros H. unfold runTransfer_entries. rewrite bind_unfold, wrapW_unfold.
  pose proof (CheckBalance_state env GetBalance entries w) as S.
  destruct (CheckBalance env GetBalance entries w) as [w1 r]. simpl in S, H. subst w1 r.
  reflexivity.
Qed.

Lemma runTransfer_balance_gate_witness :
  runTransfer_entries (sample_env None None 5) (fun _ => Ok 0) [sample_entry 100]
    (sample_wallet ∅ 5) =
  (sample_wallet ∅ 5,
   Err (ErrWrapW "insufficient balance" (ErrMsg "insufficient balance for transfers"))).
Proof.
  apply runTransfer_balance_gate. vm_compute. reflexivity.
Defined.

(** ** [CompareEntries] *)

(** X13: [CompareEntries] is an equivalence on entries: reflexive,
    symmetric and transitive; the values are compared as numbers, so two
    encodings of the same amount (such as [1000e-1] and [100]) match. *)
Theorem CompareEntries_equivalence :
  (forall a, CompareEntries a a = true) /\
  (forall a b, CompareEntries a b = CompareEntries b a) /\
  (forall a b c, CompareEntries a b = true -> CompareEntries b c = true ->
                 CompareEntries a c = true) /\
  (forall a b, decimal_val (wtypes.Value a) == decimal_val (wtypes.Value b) ->
     CompareEntries (Some a) (Some b) =
       Z.eqb (wtypes.ID a) (wtypes.ID b) &&
       Z.eqb (wtypes.MinerAccountID a) (wtypes.MinerAccountID b) &&
       String.eqb (wtypes.ToAddress a) (wtypes.ToAddress b))%Q.
Proof.
  split; [|split; [|split]].
  - intros [a|]; [|reflexivity]. apply CompareEntries_fields.
    repeat split. apply decimal_Equal_val. reflexivity.
  - intros [a|] [b|]; try reflexivity. simpl.
    rewrite (Z.eqb_sym (wtypes.ID a)), (Z.eqb_sym (wtypes.MinerAccountID a)),
      (String.eqb_sym (wtypes.ToAddress a)).
    f_equal. unfold decimal_Equal. rewrite !decimal_Cmp_val, <- (Qcompare_antisym (decimal_val (wtypes.Value a))).
    destruct (_ ?= _)%Q; reflexivity.
  - intros [a|] [b|] [c|]; try discriminate; try reflexivity.
    rewrite !CompareEntries_fields, !decimal_Equal_val.
    intros (A1 & A2 & A3 & A4) (B1 & B2 & B3 & B4). repeat split; try congruence.
    rewrite A4. exact B4.
  - intros a b H. simpl. replace (decimal_Equal (wtypes.Value a) (wtypes.Value b)) with true.
    + rewrite andb_true_r. reflexivity.
    + symmetry. apply decimal_Equal_val. exact H.
Qed.

(** ** Monitoring when every pending transaction already has a receipt *)

Lemma check_step_pending_none env w q k :
  pendingTxs w !! k = None -> pendingTxs (check_step env w q) !! k = None.
Proof.
  intros H. unfold check_step.
  destruct (TransactionReceipt _ _ _); [destruct (io_error (txDAL w))|]; simpl; try exact H.
  destruct (decide (types.Hash (PTx q) = k)) as [<-|Hne];
    [apply lookup_delete_eq | rewrite lookup_delete_ne by exact Hne; exact H].
Qed.

Lemma fold_pending_none env l w k :
  pendingTxs w !! k = None -> pendingTxs (fold_left (check_step env) l w) !! k = None.
Proof.
  revert w. induction l as [|q l IH]; intros w H; [exact H|].
  simpl. apply IH. apply check_step_pending_none. exact H.
Qed.

Lemma fold_clock env l w : clock (fold_left (check_step env) l w) = clock w.
Proof.
  revert w. induction l as [|q l IH]; intros w; [reflexivity|].
  simpl. rewrite IH. apply check_step_clock.
Qed.

Lemma monitor_loop_empty env n w :
  pendingTxs w = ∅ -> monitor_loop env n w = (w, Ok (0, None)).
Proof.
  intros H. destruct n; cbn [monitor_loop]; rewrite bind_unfold; unfold get at 1;
    cbv beta iota; rewrite H, map_size_empty; reflexivity.
Qed.

(** X14: when the transaction table is reachable, the pending set is keyed by
    hash, and every pending transaction already has a receipt, the first
    [checkPendingTransactions] of [MonitorAllTransactions] confirms them all:
    the monitor returns [(0, nil)] at once, whatever the deadline, with an
    empty pending set and no time spent waiting. *)
Theorem MonitorAllTransactions_all_receipts env deadline w :
  io_error (txDAL w) = None ->
  pending_keyed w ->
  (forall k q, pendingTxs w !! k = Some q -> is_Some (TransactionReceipt env (clock w) k)) ->
  exists w', MonitorAllTransactions env deadline w = (w', Ok (0, None)) /\
    pendingTxs w' = ∅ /\ clock w' = clock w.
Proof.
  intros Hio Hkey Hr.
  unfold MonitorAllTransactions, checkPendingTransactions.
  rewrite bind_unfold, bind_unfold. unfold get at 1. cbv beta iota.
  rewrite check_each_fold. rewrite bind_unfold. unfold get at 1. cbv beta iota.
  set (w1 := fold_left (check_step env) (map snd (map_to_list (pendingTxs w))) w).
  assert (Hempty : pendingTxs w1 = ∅).
  { apply map_empty. intros k. destruct (pendingTxs w !! k) as [p|] eqn:Hp.
    - pose proof (Hkey k p Hp) as Hk. destruct (Hr k p Hp) as [rc Hrc].
      rewrite <- Hk in Hrc, Hp |- *.
      assert (Hc : confirmed_in w w1 (PTx p) rc).
      { unfold w1. apply fold_confirms; [| |exact Hrc|exact Hio|reflexivity|].
        - apply list_elem_of_In, in_map_iff. exists (types.Hash (PTx p), p).
          split; [reflexivity|]. apply list_elem_of_In, elem_of_map_to_list. exact Hp.
        - intros q Hq Hh. apply list_elem_of_In, in_map_iff in Hq.
          destruct Hq as ([k' q'] & Heq & Hkq). simpl in Heq. subst q.
          apply list_elem_of_In, elem_of_map_to_list in Hkq. simpl in *.
          rewrite (Hkey k' q' Hkq) in Hh. subst k'. rewrite Hp in Hkq.
          inversion Hkq. reflexivity.
        - intros id r H0 Hh. eauto. }
      exact (proj1 Hc).
    - unfold w1. apply fold_pending_none. exact Hp. }
  exists w1. split; [|split; [exact Hempty|apply fold_clock]].
  apply monitor_loop_empty. exact Hempty.
Qed.

(** X14, at three pending transactions that all have a receipt. *)
Lemma MonitorAllTransactions_all_receipts_witness :
  exists w', MonitorAllTransactions (sample_env None (Some sample_receipt) 5) 0
               batch_pending_wallet = (w', Ok (0, None)) /\
    pendingTxs w' = ∅ /\ clock w' = clock batch_pending_wallet.
Proof.
  apply MonitorAllTransactions_all_receipts.
  - vm_compute. reflexivity.
  - change (map_Forall (fun k q => types.Hash (PTx q) = k) (pendingTxs batch_pending_wallet)).
    apply (bool_decide_unpack _). vm_compute. reflexivity.
  - intros k q _. eexists. reflexivity.
Defined.

(** ** The pending set stays keyed by transaction hash *)

Lemma stays_ret {A} (a : A) : stays keyed_rel (ret a).
Proof. intros w H. exact H. Qed.

Lemma stays_throw {A} (e : GoError) : stays keyed_rel (@throw A e).
Proof. intros w H. exact H. Qed.

Lemma stays_get : stays keyed_rel get.
Proof. intros w H. exact H. Qed.

Lemma stays_bind {A B} (c : M A) (k : A -> M B) :
  stays keyed_rel c -> (forall a, stays keyed_rel (k a)) -> stays keyed_rel (bind c k).
Proof.
  intros Hc Hk w H. unfold bind. specialize (Hc w H).
  destruct (c w) as [w1 [a|e]]; simpl in *; [|exact Hc].
  apply Hk. exact Hc.
Qed.

Lemma stays_attempt {A} (c : M A) : stays keyed_rel c -> stays keyed_rel (attempt c).
Proof. intros Hc w H. unfold attempt. specialize (Hc w H). destruct (c w); exact Hc. Qed.

Lemma stays_wrapW {A} f (c : M A) : stays keyed_rel c -> stays keyed_rel (wrapW f c).
Proof. intros Hc w H. unfold wrapW. specialize (Hc w H). destruct (c w) as [? []]; exact Hc. Qed.

Lemma stays_wrapV {A} f (c : M A) : stays keyed_rel c -> stays keyed_rel (wrapV f c).
Proof. intros Hc w H. unfold wrapV. specialize (Hc w H). destruct (c w) as [? []]; exact Hc. Qed.

Lemma stays_modify f : (forall w, keyed_rel w (f w)) -> stays keyed_rel (modify f).
Proof. intros Hf w. apply Hf. Qed.

Lemma stays_sleep ctx d : stays keyed_rel (sleep ctx d).
Proof.
  intros w H. unfold sleep. destruct ctx; [|destruct (_ <=? _)]; exact H.
Qed.

Lemma stays_UpdateTransactionStatus h g rc : stays keyed_rel (UpdateTransactionStatus h g rc).
Proof.
  intros w H. unfold UpdateTransactionStatus.
  destruct (dal.UpdateTransactionStatus _ _ _ _ _) as [db' [e|]]; exact H.
Qed.

Lemma stays_CreateTransactionRecord r : stays keyed_rel (CreateTransactionRecord r).
Proof.
  intros w H. unfold CreateTransactionRecord.
  destruct (dal.CreateTransaction _ _) as [db' [e|]]; exact H.
Qed.

Lemma keyed_insert w t e :
  keyed_rel w (set_pendingTxs w (<[types.Hash t := mkPendingTx t e]> (pendingTxs w))).
Proof.
  intros H k q Hk. simpl in Hk.
  destruct (decide (types.Hash t = k)) as [<-|Hne].
  - rewrite lookup_insert_eq in Hk. inversion Hk. reflexivity.
  - rewrite lookup_insert_ne in Hk by exact Hne. exact (H k q Hk).
Qed.

Lemma keyed_delete w h : keyed_rel w (set_pendingTxs w (delete h (pendingTxs w))).
Proof.
  intros H k q Hk. simpl in Hk.
  destruct (decide (h = k)) as [<-|Hne].
  - rewrite lookup_delete_eq in Hk. discriminate.
  - rewrite lookup_delete_ne in Hk by exact Hne. exact (H k q Hk).
Qed.

Ltac stays_step :=
  lazymatch goal with
  | |- stays keyed_rel (bind _ _) => apply stays_bind; [|intro]
  | |- stays keyed_rel (attempt _) => apply stays_attempt
  | |- stays keyed_rel (wrapW _ _) => apply stays_wrapW
  | |- stays keyed_rel (wrapV _ _) => apply stays_wrapV
  | |- stays keyed_rel (ret _) => apply stays_ret
  | |- stays keyed_rel (throw _) => apply stays_throw
  | |- stays keyed_rel get => apply stays_get
  | |- stays keyed_rel (match ?x with _ => _ end) => destruct x
  | |- stays keyed_rel (sleep _ _) => apply stays_sleep
  | |- stays keyed_rel (UpdateTransactionStatus _ _ _) => apply stays_UpdateTransactionStatus
  | |- stays keyed_rel (CreateTransactionRecord _) => apply stays_CreateTransactionRecord
  | |- stays keyed_rel (cleanupConfirmedNonces _) =>
      apply stays_modify; intros w0 H0; exact H0
  | |- stays keyed_rel (emit _) => apply stays_modify; intros w0 H0; exact H0
  | |- stays keyed_rel (modify (fun w => set_pendingTxs w (<[_ := _]> _))) =>
      apply stays_modify; intro; apply keyed_insert
  | |- stays keyed_rel (modify (fun w => set_pendingTxs w (delete _ _))) =>
      apply stays_modify; intro; apply keyed_delete
  | |- stays keyed_rel (modify _) => apply stays_modify; intros w0 H0; exact H0
  end.

Lemma stays_WaitForReceipt_loop env ctx h n : stays keyed_rel (WaitForReceipt_loop env ctx h n).
Proof.
  revert ctx h. induction n; intros ctx h; simpl; [apply stays_throw|].
  unfold GetTransactionReceipt. repeat (stays_step || apply IHn).
Qed.

Lemma stays_GetNonce env ctx : stays keyed_rel (GetNonce env ctx).
Proof. unfold GetNonce. repeat stays_step. Qed.

Lemma stays_obtain_signed_tx env ctx e : stays keyed_rel (obtain_signed_tx env ctx e).
Proof.
  unfold obtain_signed_tx, GetTransactionByID, CreateTransaction.
  repeat (stays_step || apply stays_GetNonce).
Qed.

Lemma stays_ProcessEntry env ctx e : stays keyed_rel (ProcessEntry env ctx e).
Proof.
  unfold ProcessEntry, BroadcastTransaction, MonitorAndConfirmTransaction, WaitForReceipt,
    CheckTransactionAndConfirm, GetTransactionReceipt.
  repeat (stays_step || apply stays_obtain_signed_tx || apply stays_WaitForReceipt_loop).
Qed.

Lemma stays_ProcessEntryAsync env ctx e : stays keyed_rel (ProcessEntryAsync env ctx e).
Proof.
  unfold ProcessEntryAsync, BroadcastTransaction.
  repeat (stays_step || apply stays_obtain_signed_tx).
Qed.

Lemma stays_check_each env l : stays keyed_rel (check_each env l).
Proof.
  induction l; simpl; unfold CheckTransactionAndConfirm, GetTransactionReceipt;
    repeat (stays_step || apply IHl).
Qed.

Lemma stays_monitor_loop env n : stays keyed_rel (monitor_loop env n).
Proof.
  induction n; simpl; unfold checkPendingTransactions;
    repeat (stays_step || apply stays_check_each || apply IHn).
Qed.

Lemma stays_submit_entries env ctx es i f p : stays keyed_rel (submit_entries env ctx es i f p).
Proof.
  revert i f p. induction es as [|e es IH]; intros i f p; simpl;
    repeat (stays_step || apply stays_ProcessEntryAsync || apply IH).
Qed.

Lemma stays_ProcessBatchEntry env ctx es : stays keyed_rel (ProcessBatchEntry env ctx es).
Proof.
  unfold ProcessBatchEntry, MonitorAllTransactions, checkPendingTransactions.
  repeat (stays_step || apply stays_submit_entries || apply stays_check_each
          || apply stays_monitor_loop).
Qed.

(** X15: [pendingTxs] stays keyed by transaction hash.  Over any sequence
    of calls to [ProcessEntry], [ProcessEntryAsync] and [ProcessBatchEntry]
    (the batch's monitoring included), starting from a pending set in which
    every key is the hash of the transaction stored under it, every key of
    the final pending set is still the hash of its transaction: entries are
    only added under [signedTx.Hash()] and only deleted. *)
Theorem run_pending_keyed env calls w :
  pending_keyed w -> pending_keyed (fst (run env calls w)).
Proof.
  revert w. induction calls as [|c calls IH]; intros w H; simpl; [exact H|].
  rewrite bind_unfold. unfold attempt at 1.
  assert (H1 : pending_keyed (fst (exec_call env c w))).
  { destruct c; simpl.
    - apply stays_ProcessEntry. exact H.
    - apply stays_ProcessEntryAsync. exact H.
    - revert H. apply (stays_bind (ProcessBatchEntry env ctx entries) (fun _ => ret tt)).
      + apply stays_ProcessBatchEntry.
      + intro. apply stays_ret. }
  destruct (exec_call env c w) as [w1 r]. apply IH. exact H1.
Qed.

(** X15, from the empty pending set of [batch_wallet] through a batch
    whose transactions stay unconfirmed and a single submission. *)
Lemma run_pending_keyed_witness :
  pending_keyed (fst (run (sample_env None None 5)
                        [CallProcessBatchEntry Background [batch_entry 7; batch_entry 8];
                         CallProcessEntryAsync Background (batch_entry 9)] batch_wallet)).
Proof.
  apply run_pending_keyed. intros k q Hk. unfold batch_wallet in Hk. simpl in Hk.
  rewrite lookup_empty in Hk. discriminate.
Defined.
